(** * CMORPH ingest: a shallow embedding of [ingest_cmorph_daily_complete.py]

    The development follows the source file function by function:
    - Python values, exceptions and the handful of built-ins the code calls
      ([str.split], slicing, [int], [datetime]);
    - [_read_description], the descriptor parser;
    - [_compute_days], the time axis generator;
    - [_read_daily_cmorph_to_monthly_sum], the reader and monthly aggregator;
    - [ingest_cmorph_to_netcdf], the driver and dataset assembler.

    Strings are sequences of code points below 256, integers are unbounded
    ([Z]), 32- and 64-bit floats are IEEE 754 values ([spec_float]). *)

From Stdlib Require Import ZArith NArith List String Ascii Bool Lia SpecFloat
  DecimalString.
From stdpp Require Import base option list strings gmap.

Open Scope string_scope.
Open Scope Z_scope.

(** ** Exceptions and results *)

Inductive exn : Type :=
| IndexError
| ValueError
| KeyError
| TypeError
| AttributeError
| OSError
| NetCDFError.

Inductive result (A : Type) : Type :=
| Ok (a : A)
| Raise (e : exn).
Arguments Ok {A} a.
Arguments Raise {A} e.

#[global] Instance result_ret : MRet result := fun A a => Ok a.
#[global] Instance result_bind : MBind result := fun A B f m =>
  match m with
  | Ok a => f a
  | Raise e => Raise e
  end.

Definition of_option {A} (e : exn) (o : option A) : result A :=
  match o with
  | Some a => Ok a
  | None => Raise e
  end.

#[global] Instance result_fmap : FMap result := fun A B f m =>
  match m with
  | Ok a => Ok (f a)
  | Raise e => Raise e
  end.

Definition is_ok {A} (r : result A) : bool :=
  match r with
  | Ok _ => true
  | Raise _ => false
  end.

(** ** Python strings *)

Definition code (c : ascii) : N := N_of_ascii c.

(** [str.isspace] on code points below 256: this is the separator set of
    [str.split()] without arguments. *)
Definition isspace (c : ascii) : bool :=
  let n := code c in
  ((9 <=? n) && (n <=? 13) || (28 <=? n) && (n <=? 31) || (n =? 32)
   || (n =? 133) || (n =? 160))%N.

(** The blanks [int(str)] strips on either side: the C-level [Py_ISSPACE]
    characters, and the non-ASCII spaces, which are first turned into a
    blank.  The separators 0x1c-0x1f are not among them. *)
Definition int_space (c : ascii) : bool :=
  let n := code c in
  ((9 <=? n) && (n <=? 13) || (n =? 32) || (n =? 133) || (n =? 160))%N.

Definition isdigit (c : ascii) : bool :=
  let n := code c in ((48 <=? n) && (n <=? 57))%N.

Definition digit_value (c : ascii) : Z := Z.of_N (code c) - 48.

Definition snoc (s : string) (c : ascii) : string := s ++ String c "".

(** [line.split()]: maximal runs of non-blank characters, in order. *)
Fixpoint split_from (cur : string) (s : string) : list string :=
  match s with
  | EmptyString => if String.eqb cur "" then [] else [cur]
  | String c s' =>
      if isspace c
      then (if String.eqb cur "" then split_from "" s'
            else cur :: split_from "" s')
      else split_from (snoc cur c) s'
  end.

Definition split (s : string) : list string := split_from "" s.

(** [sep.join(words)] *)
Fixpoint join (sep : string) (words : list string) : string :=
  match words with
  | [] => ""
  | [w] => w
  | w :: ws => w ++ sep ++ join sep ws
  end.

(** [s[-a:-b]] for [0 < b <= a]: both bounds are clipped at the start of the
    string, so a short string gives a short (possibly empty) slice. *)
Definition slice_from_end (s : string) (a b : nat) : string :=
  let n := String.length s in
  substring (n - a) ((n - b) - (n - a)) s.

(** [words[i]] *)
Definition item {A} (l : list A) (i : nat) : result A :=
  of_option IndexError (nth_error l i).

(** *** [int(str)], base 10

    Optional blanks, an optional sign, then decimal digits in which single
    underscores may separate digits, then optional blanks. *)
Fixpoint drop_while (p : ascii -> bool) (s : string) : string :=
  match s with
  | EmptyString => EmptyString
  | String c s' => if p c then drop_while p s' else s
  end.

Fixpoint all_chars (p : ascii -> bool) (s : string) : bool :=
  match s with
  | EmptyString => true
  | String c s' => p c && all_chars p s'
  end.

(** [after_digit] tells whether the previous character was a digit; the
    literal may end, or an underscore may follow, only then. *)
Fixpoint int_digits (after_digit : bool) (acc : Z) (s : string) : option Z :=
  match s with
  | EmptyString => if after_digit then Some acc else None
  | String c s' =>
      if isdigit c then int_digits true (10 * acc + digit_value c) s'
      else if Ascii.eqb c "_"
           then (if after_digit then int_digits false acc s' else None)
           else if int_space c
                then (if after_digit && all_chars int_space s'
                      then Some acc else None)
                else None
  end.

Definition int_of_string (s : string) : option Z :=
  match drop_while int_space s with
  | String "+" s' => int_digits false 0 s'
  | String "-" s' => Z.opp <$> int_digits false 0 s'
  | s' => int_digits false 0 s'
  end.

Definition int (s : string) : result Z := of_option ValueError (int_of_string s).

(** ** Python values

    The values the program stores in the descriptor dictionary and hands to
    [datetime] arithmetic. *)

Record datetime : Type := Datetime { year : Z; month : Z; day : Z }.

Inductive pyval : Type :=
| PyInt (z : Z)
| PyFloat (f : spec_float)
| PyBool (b : bool)
| PyStr (s : string)
| PyDatetime (d : datetime).

(** The result of subtracting two datetimes; every datetime of this program
    is at midnight, so only the day count is kept. *)
Record timedelta : Type := Timedelta { days : Z }.

(** *** The proleptic Gregorian calendar of [datetime] *)

Definition isleap (y : Z) : bool :=
  (y mod 4 =? 0) && (negb (y mod 100 =? 0) || (y mod 400 =? 0)).

Definition _MONTH_DAYS_NONLEAP : list Z :=
  [31; 28; 31; 30; 31; 30; 31; 31; 30; 31; 30; 31].
Definition _MONTH_DAYS_LEAP : list Z :=
  [31; 29; 31; 30; 31; 30; 31; 31; 30; 31; 30; 31].

Definition month_days (y : Z) : list Z :=
  if isleap y then _MONTH_DAYS_LEAP else _MONTH_DAYS_NONLEAP.

Definition days_in_month (y m : Z) : Z :=
  nth (Z.to_nat (m - 1)) (month_days y) 0.

Definition days_before_year (y : Z) : Z :=
  let p := y - 1 in p * 365 + p / 4 - p / 100 + p / 400.

Definition days_before_month (y m : Z) : Z :=
  fold_right Z.add 0 (firstn (Z.to_nat (m - 1)) (month_days y)).

(** [d.toordinal()]: 1 for 0001-01-01. *)
Definition toordinal (d : datetime) : Z :=
  days_before_year (year d) + days_before_month (year d) (month d) + day d.

(** [datetime(y, m, d)] *)
Definition datetime_new (y m d : Z) : result datetime :=
  if (1 <=? y) && (y <=? 9999) && (1 <=? m) && (m <=? 12)
     && (1 <=? d) && (d <=? days_in_month y m)
  then Ok (Datetime y m d)
  else Raise ValueError.

(** [self - other] for a datetime [self]: a datetime gives a timedelta; an
    int, float, bool or str is not supported on either side. *)
Definition datetime_sub (self : datetime) (other : pyval) : result timedelta :=
  match other with
  | PyDatetime d => Ok (Timedelta (toordinal self - toordinal d))
  | _ => Raise TypeError
  end.

(** [self + other] for a datetime [self]: only a timedelta can be added, and
    no [pyval] is one. *)
Definition datetime_add (self : datetime) (other : pyval) : result datetime :=
  match other with
  | _ => Raise TypeError
  end.

(** ** [_compute_days] *)

(** [np.empty(n, dtype=int)]: [n] slots of unspecified content (zeros
    here; the loop below assigns every slot before the array is returned). *)
Definition np_empty_int (n : Z) : result (list Z) :=
  if n <? 0 then Raise ValueError else Ok (replicate (Z.to_nat n) 0).

(** [a[i] = v] on an integer array with a datetime [v]: numpy cannot turn
    a datetime into an integer. *)
Definition setitem_datetime (a : list Z) (i : Z) (v : datetime)
  : result (list Z) :=
  Raise TypeError.

(** The body of [for i in range(total_days)]. *)
Fixpoint fill_days (units_day_start : datetime) (range : list Z)
  (days : list Z) : result (list Z) :=
  match range with
  | [] => Ok days
  | i :: rest =>
      v ← datetime_add units_day_start (PyInt i);
      days' ← setitem_datetime days i v;
      fill_days units_day_start rest days'
  end.

Definition _compute_days (year_initial year_final year_since : Z)
  : result (list Z) :=
  if year_initial <? year_since then Raise ValueError else
  d ← datetime_new year_initial 1 1;
  let data_day_initial := PyInt (day d) in
  last ← datetime_new year_final 12 31;
  delta ← datetime_sub last data_day_initial;
  let total_days := days delta in
  units_day_start ← datetime_new year_since 1 1;
  days ← np_empty_int total_days;
  fill_days units_day_start (seqZ 0 total_days) days.

(** *** Calling [_compute_days]

    Python binds the arguments of a call before the body runs: positional
    arguments in order, then keywords, each of which has to name a parameter
    that is still free; [year_since] defaults to 1900.  Any mismatch is a
    [TypeError]. *)
Definition _compute_days_params : list string :=
  ["year_initial"; "year_final"; "year_since"].

Fixpoint bind_positional (params : list string) (args : list Z)
  (bound : gmap string Z) : result (gmap string Z) :=
  match args, params with
  | [], _ => Ok bound
  | a :: args', p :: params' => bind_positional params' args' (<[p := a]> bound)
  | _ :: _, [] => Raise TypeError
  end.

Fixpoint bind_keywords (kwargs : list (string * Z)) (bound : gmap string Z)
  : result (gmap string Z) :=
  match kwargs with
  | [] => Ok bound
  | (k, v) :: rest =>
      if bool_decide (k ∈ _compute_days_params)
      then match bound !! k with
           | Some _ => Raise TypeError
           | None => bind_keywords rest (<[k := v]> bound)
           end
      else Raise TypeError
  end.

Definition call_compute_days (args : list Z) (kwargs : list (string * Z))
  : result (list Z) :=
  bound ← bind_positional _compute_days_params args ∅;
  bound ← bind_keywords kwargs bound;
  year_initial ← of_option TypeError (bound !! "year_initial");
  year_final ← of_option TypeError (bound !! "year_final");
  _compute_days year_initial year_final (default 1900 (bound !! "year_since")).

(** ** The time index of a month

    [((year - data_desc['start_date'].year) * 12) + month - 1] *)
Definition time_index (year start_year month : Z) : Z :=
  ((year - start_year) * 12) + month - 1.

(** ** Dictionaries and dynamic typing *)

(** [d[key]] *)
Definition getitem (d : gmap string pyval) (key : string) : result pyval :=
  of_option KeyError (d !! key).

(** [bool(v)], as [not v] needs it. *)
Definition truthy (v : pyval) : bool :=
  match v with
  | PyInt z => negb (z =? 0)
  | PyFloat (S754_zero _) => false
  | PyFloat _ => true
  | PyBool b => b
  | PyStr s => negb (String.eqb s "")
  | PyDatetime _ => true
  end.

Definition float_zero : spec_float := S754_zero false.

(** [v < 0] *)
Definition lt_zero (v : pyval) : result bool :=
  match v with
  | PyInt z => Ok (z <? 0)
  | PyFloat f => Ok (SFltb f float_zero)
  | PyBool _ => Ok false
  | PyStr _ | PyDatetime _ => Raise TypeError
  end.

(** [a * b] used as the length of a one-dimensional array: an integer only
    when both factors are integers (a bool counts as 0 or 1); a float, a
    repeated string or an unsupported product is not a length. *)
Definition as_index (v : pyval) : option Z :=
  match v with
  | PyInt z => Some z
  | PyBool b => Some (if b then 1 else 0)
  | _ => None
  end.

Definition array_length (a b : pyval) : result Z :=
  match as_index a, as_index b with
  | Some x, Some y => Ok (x * y)
  | _, _ => Raise TypeError
  end.

(** [v.year] *)
Definition attr_year (v : pyval) : result Z :=
  match v with
  | PyDatetime d => Ok (year d)
  | _ => Raise AttributeError
  end.

(** [v.month] *)
Definition attr_month (v : pyval) : result Z :=
  match v with
  | PyDatetime d => Ok (month d)
  | _ => Raise AttributeError
  end.

(** ** Floating point arrays

    A float32 array is kept as its 32-bit patterns, which is what
    [byteswap] permutes; the value of a pattern is a [spec_float].  The
    accumulator is a float64 array. *)

Definition binary32 (w : Z) : spec_float :=
  let s := Z.testbit w 31 in
  let e := Z.land (Z.shiftr w 23) 255 in
  let m := Z.land w 8388607 in
  if e =? 0 then
    match m with
    | Zpos p => S754_finite s p (-149)
    | _ => S754_zero s
    end
  else if e =? 255 then
    (if m =? 0 then S754_infinity s else S754_nan)
  else
    match Z.lor m 8388608 with
    | Zpos p => S754_finite s p (e - 150)
    | _ => S754_nan
    end.

(** float32 to float64: exact. *)
Definition to_double (f : spec_float) : spec_float :=
  match f with
  | S754_finite s m e => binary_round 53 1024 s m e
  | _ => f
  end.

Definition double_add : spec_float -> spec_float -> spec_float := SFadd 53 1024.

(** One element of [x.byteswap()]: the four bytes in reverse order. *)
Definition byteswap32 (w : Z) : Z :=
  Z.lor (Z.shiftl (Z.land w 255) 24)
    (Z.lor (Z.shiftl (Z.land (Z.shiftr w 8) 255) 16)
       (Z.lor (Z.shiftl (Z.land (Z.shiftr w 16) 255) 8)
          (Z.land (Z.shiftr w 24) 255))).

Definition byteswap (data : list Z) : list Z := map byteswap32 data.

(** [data[data < 0] = 0.0] *)
Definition zero_negative (data : list Z) : list Z :=
  map (fun w => if SFltb (binary32 w) float_zero then 0 else w) data.

(** The largest size numpy can address, [sys.maxsize] on a 64-bit machine. *)
Definition NPY_MAX_INTP : Z := 2 ^ 63 - 1.

(** [np.zeros((n,))], an array of [n] float64 zeros.  numpy refuses with
    [ValueError] a negative dimension, a dimension above [NPY_MAX_INTP]
    and an array of more than [NPY_MAX_INTP] bytes (eight per element).
    Below that the allocation is taken to succeed: the memory of the
    machine is not part of the model. *)
Definition np_zeros (n : Z) : result (list spec_float) :=
  if n <? 0 then Raise ValueError
  else if NPY_MAX_INTP <? n * 8 then Raise ValueError
  else Ok (replicate (Z.to_nat n) float_zero).

(** [summed_data += data] with numpy's broadcasting: equal lengths add
    element by element, a one-element [data] is added to every element, any
    other pair of shapes is refused. *)
Definition iadd (summed_data : list spec_float) (data : list Z)
  : result (list spec_float) :=
  let values := map (fun w => to_double (binary32 w)) data in
  if (length values =? length summed_data)%nat
  then Ok (zip_with double_add summed_data values)
  else match values with
       | [v] => Ok (map (fun x => double_add x v) summed_data)
       | _ => Raise ValueError
       end.

(** The four-byte groups of a file, each as the 32-bit word it denotes in
    the given byte order; up to three trailing bytes are left over. *)
Definition word_of_bytes (little : bool) (b0 b1 b2 b3 : ascii) : Z :=
  let byte c := Z.of_N (code c) in
  if little
  then byte b0 + 256 * byte b1 + 65536 * byte b2 + 16777216 * byte b3
  else byte b3 + 256 * byte b2 + 65536 * byte b1 + 16777216 * byte b0.

Fixpoint words_of_bytes (little : bool) (s : string) : list Z :=
  match s with
  | String b0 (String b1 (String b2 (String b3 rest))) =>
      word_of_bytes little b0 b1 b2 b3 :: words_of_bytes little rest
  | _ => []
  end.

(** ** Text files

    [for line in fp] on a file opened in text mode: the lines end at a line
    feed, a carriage return or the pair of them, each handed over with a
    single line feed at its end; the last line may lack one. *)
Fixpoint readlines_from (after_cr : bool) (cur : string) (s : string)
  : list string :=
  match s with
  | EmptyString => if String.eqb cur "" then [] else [cur]
  | String c s' =>
      if Ascii.eqb c "010" then
        (if after_cr then readlines_from false cur s'
         else snoc cur "010" :: readlines_from false "" s')
      else if Ascii.eqb c "013" then
        snoc cur "010" :: readlines_from true "" s'
      else readlines_from false (snoc cur c) s'
  end.

Definition readlines (text : string) : list string :=
  readlines_from false "" text.

(** ** The world outside the program

    Directories with their entries in the order [os.listdir] reports them,
    the readable regular files with their bytes, and the calls made to the
    netCDF4 library so far (the output dataset is what they built). *)

Inductive nc_call : Type :=
| NcDataset (path : string)
| NcCreateDimension (name : string) (size : option pyval)
| NcSetAttr (target name : string) (value : pyval)
| NcCreateVariable (name datatype : string) (dims : list string)
    (fill_value : option pyval)
| NcAssign (variable : string) (index : option Z) (values : list spec_float)
| NcAssignTime (values : list Z)
| NcClose.

Record world : Type := World {
  dirs : gmap string (list string);
  files : gmap string string;
  netcdf : list nc_call;
}.

(** [os.listdir(path)] *)
Definition os_listdir (w : world) (path : string) : result (list string) :=
  of_option OSError (dirs w !! path).

(** [open(path, 'r')] and reading it to the end. *)
Definition read_file (w : world) (path : string) : result string :=
  of_option OSError (files w !! path).

(** Statements that act on the world: the world after them, and the value
    or the exception. *)
Definition io (A : Type) : Type := world -> world * result A.

#[global] Instance io_ret : MRet io := fun A a w => (w, Ok a).
#[global] Instance io_bind : MBind io := fun A B f m w =>
  match m w with
  | (w', Ok a) => f a w'
  | (w', Raise e) => (w', Raise e)
  end.

(** A computation that only inspects the world. *)
Definition inspect {A} (f : world -> result A) : io A := fun w => (w, f w).

(** The statement raises in every world. *)
Definition raises {A} (m : io A) : Prop :=
  forall w, exists w' e, m w = (w', Raise e).

(** Two worlds that hold the same under [path] (the same file, or none) and
    have seen the same netCDF4 calls. *)
Definition same_at (path : string) (w1 w2 : world) : Prop :=
  files w1 !! path = files w2 !! path /\ netcdf w1 = netcdf w2.

(** The statement reads no file but the one at [path]: from two such worlds
    it gives the same value or exception, and leaves two such worlds. *)
Definition reads_only {A} (path : string) (m : io A) : Prop :=
  forall w1 w2, same_at path w1 w2 ->
    (m w1).2 = (m w2).2 /\ same_at path (m w1).1 (m w2).1.

(** ** What the platform and the libraries fix

    [os.sep], the byte order numpy reads ['f'] with, two parsers of the
    standard library, [float(str)] and [datetime.strptime(str, '%d%b%Y')]
    ([None] when they raise [ValueError]), and the collaborators that change
    the world: [urllib.request.urlretrieve(url, path)], [os.remove(path)],
    the retrieval of a month of daily files ([_download_daily_files]), and
    whether netCDF4 accepts a call after the calls made so far. *)
Class Platform : Type := {
  os_sep : string;
  native_little_endian : bool;
  float_of_string : string -> option spec_float;
  strptime_dbY : string -> option datetime;
  urlretrieve : string -> string -> io unit;
  os_remove : string -> io unit;
  _download_daily_files : string -> Z -> Z -> string -> io (list string);
  netcdf_accepts : list nc_call -> nc_call -> bool;
}.

Section WithPlatform.
Context `{P : Platform}.

Definition float (s : string) : result spec_float :=
  of_option ValueError (float_of_string s).

Definition strptime (s : string) : result datetime :=
  of_option ValueError (strptime_dbY s).

(** [os.sep.join((a, b))] *)
Definition sep_join (a b : string) : string := join os_sep [a; b].

(** ** [_read_description] *)

(** The body of [for line in fp]: one line, one update of [data_dict]. *)
Definition read_description_line (data_dict : gmap string pyval) (line : string)
  : result (gmap string pyval) :=
  let words := split line in
  w0 ← item words 0;
  if String.eqb w0 "UNDEF" then
    w1 ← item words 1; undef ← float w1;
    mret (<["undef" := PyFloat undef]> data_dict)
  else if String.eqb w0 "XDEF" then
    w1 ← item words 1; count ← int w1;
    let data_dict := <["xdef_count" := PyInt count]> data_dict in
    w3 ← item words 3; start ← float w3;
    let data_dict := <["xdef_start" := PyFloat start]> data_dict in
    w4 ← item words 4; increment ← float w4;
    mret (<["xdef_increment" := PyFloat increment]> data_dict)
  else if String.eqb w0 "YDEF" then
    w1 ← item words 1; count ← int w1;
    let data_dict := <["ydef_count" := PyInt count]> data_dict in
    w3 ← item words 3; start ← float w3;
    let data_dict := <["ydef_start" := PyFloat start]> data_dict in
    w4 ← item words 4; increment ← float w4;
    mret (<["ydef_increment" := PyFloat increment]> data_dict)
  else if String.eqb w0 "TDEF" then
    w3 ← item words 3; start_date ← strptime w3;
    mret (<["start_date" := PyDatetime start_date]> data_dict)
  else if String.eqb w0 "OPTIONS" then
    w2 ← item words 2;
    if String.eqb w2 "big_endian"
    then mret (<["little_endian" := PyBool false]> data_dict)
    else mret (<["little_endian" := PyBool true]> data_dict)
  else if String.eqb w0 "cmorph" then
    mret (<["variable_description" := PyStr (join " " (drop 4 words))]> data_dict)
  else if String.eqb w0 "TITLE" then
    mret (<["title" := PyStr (join " " (drop 1 words))]> data_dict)
  else mret data_dict.

Fixpoint read_description_lines (data_dict : gmap string pyval)
  (lines : list string) : result (gmap string pyval) :=
  match lines with
  | [] => Ok data_dict
  | line :: rest =>
      data_dict' ← read_description_line data_dict line;
      read_description_lines data_dict' rest
  end.

Definition _read_description (w : world) (descriptor_file : string)
  : result (gmap string pyval) :=
  text ← read_file w descriptor_file;
  read_description_lines ∅ (readlines text).

(** ** [_read_daily_cmorph_to_monthly_sum] *)

(** [np.fromfile(path, 'f')]: as many float32 elements as the file holds
    whole groups of four bytes, in the byte order of the machine. *)
Definition np_fromfile (w : world) (path : string) : result (list Z) :=
  content ← read_file w path;
  mret (words_of_bytes native_little_endian content).

(** The daily grid reader: the statements of the loop body between the
    file name test and the accumulation. *)
Definition read_daily (w : world) (cmorph_dir : string)
  (data_desc : gmap string pyval) (cmorph_file : string) : result (list Z) :=
  data ← np_fromfile w (sep_join cmorph_dir cmorph_file);
  little_endian ← getitem data_desc "little_endian";
  let data := if negb (truthy little_endian) then byteswap data else data in
  undef ← getitem data_desc "undef";
  lt_zero undef ≫= λ negative : bool,
  mret (if negative then zero_negative data else data).

(** The array after the byte-order correction of the reader. *)
Definition corrected (little_endian : pyval) (content : string) : list Z :=
  if truthy little_endian
  then words_of_bytes native_little_endian content
  else byteswap (words_of_bytes native_little_endian content).

(** Reading and adding up the given files, one after the other. *)
Fixpoint accumulate (w : world) (cmorph_dir : string)
  (data_desc : gmap string pyval) (names : list string)
  (summed_data : list spec_float) : result (list spec_float) :=
  match names with
  | [] => Ok summed_data
  | name :: rest =>
      data ← read_daily w cmorph_dir data_desc name;
      summed_data' ← iadd summed_data data;
      accumulate w cmorph_dir data_desc rest summed_data'
  end.

(** The body of [for cmorph_file in os.listdir(cmorph_dir)]. *)
Definition monthly_sum_step (w : world) (cmorph_dir : string)
  (data_desc : gmap string pyval) (data_year data_month : Z)
  (summed_data : list spec_float) (cmorph_file : string)
  : result (list spec_float) :=
  file_year ← int (slice_from_end cmorph_file 8 4);
  file_month ← int (slice_from_end cmorph_file 4 2);
  if negb (file_year =? data_year) then mret summed_data
  else if negb (file_month =? data_month) then mret summed_data
  else
    data ← read_daily w cmorph_dir data_desc cmorph_file;
    iadd summed_data data.

Fixpoint monthly_sum_loop (w : world) (cmorph_dir : string)
  (data_desc : gmap string pyval) (data_year data_month : Z)
  (listing : list string) (summed_data : list spec_float)
  : result (list spec_float) :=
  match listing with
  | [] => Ok summed_data
  | cmorph_file :: rest =>
      summed_data' ← monthly_sum_step w cmorph_dir data_desc data_year
                       data_month summed_data cmorph_file;
      monthly_sum_loop w cmorph_dir data_desc data_year data_month rest
        summed_data'
  end.

Definition _read_daily_cmorph_to_monthly_sum (w : world) (cmorph_dir : string)
  (data_desc : gmap string pyval) (data_year data_month : Z)
  : result (list spec_float) :=
  xdef_count ← getitem data_desc "xdef_count";
  ydef_count ← getitem data_desc "ydef_count";
  n ← array_length xdef_count ydef_count;
  summed_data ← np_zeros n;
  listing ← os_listdir w cmorph_dir;
  monthly_sum_loop w cmorph_dir data_desc data_year data_month listing
    summed_data.

(** ** [ingest_cmorph_to_netcdf] *)

Definition lift {A} (r : result A) : io A := fun w => (w, r).

(** A call into netCDF4: recorded when the library accepts it. *)
Definition nc (c : nc_call) : io unit := fun w =>
  if netcdf_accepts (netcdf w) c
  then (World (dirs w) (files w) (netcdf w ++ [c]), Ok ())
  else (w, Raise NetCDFError).

(** [with netCDF4.Dataset(path, 'w') as output_dataset: body]: the dataset is
    closed when the body is left, by its end or by an exception. *)
Definition with_dataset (path : string) (body : io unit) : io unit := fun w =>
  match nc (NcDataset path) w with
  | (w1, Raise e) => (w1, Raise e)
  | (w1, Ok _) =>
      let '(w2, r) := body w1 in
      let '(w3, closed) := nc NcClose w2 in
      (w3, match r with
           | Raise e => Raise e
           | Ok _ => closed
           end)
  end.

(** [range(1998, 2018)] *)
Definition _get_years : list Z := seqZ 1998 20.

Definition _download_data_descriptor (data_descriptor_file : string) : io unit :=
  urlretrieve
    "ftp://filsrv.cicsnc.org/olivier/data_CMORPH_NIDIS/03_PGMS/CMORPH_V1.0_RAW_0.25deg-DLY_00Z.ctl"
    data_descriptor_file.

Definition when (b : bool) (m : io unit) : io unit :=
  if b then m else (fun w => (w, Ok ())).

(** From the first statement to [time_variable[:] = _compute_days(...)].
    The keywords of that call are not parameters of [_compute_days], so the
    call raises on every path that reaches it (see
    [call_compute_days_unknown_keyword] below) and no later statement of the
    function is ever run; the body of its loop over the months is
    [ingest_month]. *)
Definition ingest_cmorph_to_netcdf
  (cmorph_dir descriptor_file netcdf_file : string)
  (data_descriptor_file_name obs_type : string)
  (download_files remove_files : bool) : io unit :=
  let descriptor_file := sep_join cmorph_dir "data_descriptor.txt" in
  when download_files (_download_data_descriptor descriptor_file);;
  data_desc ← inspect (fun w => _read_description w descriptor_file);
  when (download_files && remove_files) (os_remove descriptor_file);;
  let years := _get_years in
  with_dataset netcdf_file (
    nc (NcCreateDimension "time" None);;
    xdef_count ← lift (getitem data_desc "xdef_count");
    nc (NcCreateDimension "lon" (Some xdef_count));;
    ydef_count ← lift (getitem data_desc "ydef_count");
    nc (NcCreateDimension "lat" (Some ydef_count));;
    title ← lift (getitem data_desc "title");
    nc (NcSetAttr "" "title" title);;
    nc (NcCreateVariable "time" "i4" ["time"] None);;
    nc (NcCreateVariable "lon" "f4" ["lon"] None);;
    nc (NcCreateVariable "lat" "f4" ["lat"] None);;
    let units_since_year := 1800 in
    nc (NcSetAttr "time" "units" (PyStr "days since 1800-01-01 00:00:00"));;
    nc (NcSetAttr "lon" "units" (PyStr "degrees east"));;
    nc (NcSetAttr "lat" "units" (PyStr "degrees north"));;
    start_date ← lift (getitem data_desc "start_date");
    start_year ← lift (attr_year start_date);
    start_date ← lift (getitem data_desc "start_date");
    start_month ← lift (attr_month start_date);
    days ← lift (call_compute_days
                   [start_year; Z.of_nat (length years) * 366]
                   [("initial_month", start_month);
                    ("units_start_year", units_since_year)]);
    nc (NcAssignTime days)).

(** [np.reshape(data, (1, ydef_count, xdef_count))]: the same elements in
    the same order, when the shape holds exactly that many. *)
Definition np_reshape (data : list spec_float) (ydef_count xdef_count : pyval)
  : result (list spec_float) :=
  match as_index ydef_count, as_index xdef_count with
  | Some y, Some x =>
      if (0 <=? y) && (0 <=? x) && (Z.of_nat (length data) =? y * x)
      then Ok data else Raise ValueError
  | _, _ => Raise TypeError
  end.

Fixpoint for_each {A} (l : list A) (body : A -> io unit) : io unit :=
  match l with
  | [] => fun w => (w, Ok ())
  | a :: rest => body a;; for_each rest body
  end.

(** The body of [for month in range(1, 13)] in [ingest_cmorph_to_netcdf]. *)
Definition ingest_month (cmorph_dir obs_type : string)
  (download_files remove_files : bool) (data_desc : gmap string pyval)
  (year month : Z) : io unit :=
  downloaded_files ←
    (if download_files
     then _download_daily_files cmorph_dir year month obs_type
     else (fun w => (w, Ok [])));
  data ← inspect (fun w =>
            _read_daily_cmorph_to_monthly_sum w cmorph_dir data_desc year month);
  ydef_count ← lift (getitem data_desc "ydef_count");
  xdef_count ← lift (getitem data_desc "xdef_count");
  data ← lift (np_reshape data ydef_count xdef_count);
  start_date ← lift (getitem data_desc "start_date");
  start_year ← lift (attr_year start_date);
  let time_index := time_index year start_year month in
  nc (NcAssign "prcp" (Some time_index) data);;
  when (download_files && remove_files) (for_each downloaded_files os_remove).

End WithPlatform.

(** ** A platform for the worked examples

    A little-endian POSIX host without network access: retrievals fail,
    [os.remove] deletes the file and its directory entry, netCDF4 accepts
    every call.  [float] and [strptime] know the tokens of the descriptor
    quoted in the docstring of [_read_description]. *)

Definition nl : string := String "010" "".

Definition double (m e : Z) : spec_float := binary_normalize 53 1024 m e false.

Definition example_float (s : string) : option spec_float :=
  if String.eqb s "-999.0" then Some (double (-999) 0)
  else if String.eqb s "0.125" then Some (double 1 (-3))
  else if String.eqb s "0.25" then Some (double 1 (-2))
  else if String.eqb s "-59.875" then Some (double (-479) (-3))
  else None.

Definition example_strptime (s : string) : option datetime :=
  if String.eqb s "01jan1998" then Some (Datetime 1998 1 1) else None.

Definition offline {A} : io A := fun w => (w, Raise OSError).

Definition example_remove (path : string) : io unit := fun w =>
  match files w !! path with
  | Some _ =>
      (World
         (map_imap (fun d names =>
            Some (filter (fun n => join "/" [d; n] <> path) names)) (dirs w))
         (delete path (files w))
         (netcdf w),
       Ok ())
  | None => (w, Raise OSError)
  end.

#[global] Instance posix_offline : Platform := {
  os_sep := "/";
  native_little_endian := true;
  float_of_string := example_float;
  strptime_dbY := example_strptime;
  urlretrieve := fun _ _ => offline;
  os_remove := example_remove;
  _download_daily_files := fun _ _ _ _ => offline;
  netcdf_accepts := fun _ _ => true;
}.

(** The descriptor of the docstring of [_read_description]. *)
Definition example_descriptor : string :=
  "DSET ../0.25deg-DLY_00Z/%y4/%y4%m2/CMORPH_V1.0_RAW_0.25deg-DLY_00Z_%y4%m2%d2  " ++ nl ++
  "TITLE  CMORPH Version 1.0BETA Version, daily precip from 00Z-24Z " ++ nl ++
  "OPTIONS template little_endian" ++ nl ++
  "UNDEF  -999.0" ++ nl ++
  "XDEF 1440 LINEAR    0.125  0.25" ++ nl ++
  "YDEF  480 LINEAR  -59.875  0.25" ++ nl ++
  "ZDEF   01 LEVELS 1" ++ nl ++
  "TDEF 99999 LINEAR  01jan1998 1dy " ++ nl ++
  "VARS 1" ++ nl ++
  "cmorph   1   99 yyyyy CMORPH Version 1.o daily precipitation (mm)  " ++ nl ++
  "ENDVARS" ++ nl.

(** A world whose only file is a descriptor with the given text. *)
Definition descriptor_only (path text : string) : world :=
  World ∅ {[ path := text ]} [].

(** The keys [_read_description] may assign, and what a dictionary holds
    under each. *)
Definition descriptor_keys : list string :=
  ["undef"; "xdef_count"; "xdef_start"; "xdef_increment"; "ydef_count";
   "ydef_start"; "ydef_increment"; "start_date"; "little_endian";
   "variable_description"; "title"].

Definition entries (d : gmap string pyval) : list (string * option pyval) :=
  map (fun k => (k, d !! k)) descriptor_keys.

(** ** Words of the specification about descriptors *)

(** The leading token of a line, if it has one. *)
Definition leading_token (line : string) : option string := head (split line).

(** The keyword never appears as the leading token of a line. *)
Definition never_appears (keyword : string) (lines : list string) : bool :=
  forallb (fun line => negb (bool_decide (leading_token line = Some keyword)))
    lines.

(** The leading tokens [read_description_line] reacts to. *)
Definition recognized : list string :=
  ["UNDEF"; "XDEF"; "YDEF"; "TDEF"; "OPTIONS"; "cmorph"; "TITLE"].

(** The keywords the specification requires, and the keys each one sets. *)
Definition required_keywords : list string := ["UNDEF"; "XDEF"; "YDEF"; "TDEF"].

Definition keys_of (keyword : string) : list string :=
  if String.eqb keyword "UNDEF" then ["undef"]
  else if String.eqb keyword "XDEF"
       then ["xdef_count"; "xdef_start"; "xdef_increment"]
  else if String.eqb keyword "YDEF"
       then ["ydef_count"; "ydef_start"; "ydef_increment"]
  else if String.eqb keyword "TDEF" then ["start_date"]
  else [].

(** Every line is one the parser accepts when it meets it. *)
Definition lines_accepted `{P : Platform} (lines : list string) : bool :=
  forallb (fun line => is_ok (read_description_line ∅ line)) lines.

(** ** Words of the specification about daily files *)

(** A string of exactly [n] decimal digits, and the number it writes. *)
Definition digits (n : nat) (s : string) : bool :=
  (String.length s =? n)%nat && all_chars isdigit s.

Fixpoint decimal (acc : Z) (s : string) : Z :=
  match s with
  | EmptyString => acc
  | String c s' => decimal (10 * acc + digit_value c) s'
  end.

(** The naming convention of the daily files: four digits at [[-8:-4]] and
    two digits at [[-4:-2]]. *)
Definition conventional (name : string) : bool :=
  digits 4 (slice_from_end name 8 4) && digits 2 (slice_from_end name 4 2).

(** "Characters [[-8:-4]] equal the 4-digit target year and [[-4:-2]] equal
    the 2-digit target month." *)
Definition selected (year_digits month_digits name : string) : bool :=
  String.eqb (slice_from_end name 8 4) year_digits
  && String.eqb (slice_from_end name 4 2) month_digits.

(** A name the loop passes over: both numbers are read from it and one of
    them differs from the target. *)
Definition passed_over (data_year data_month : Z) (name : string) : bool :=
  match int_of_string (slice_from_end name 8 4),
        int_of_string (slice_from_end name 4 2) with
  | Some y, Some m => negb ((y =? data_year) && (m =? data_month))
  | _, _ => false
  end.

(** "Elements strictly less than the undef sentinel are replaced with
    zero": the policy as the specification words it. *)
Definition zero_below_undef (undef : spec_float) (data : list Z) : list Z :=
  map (fun w => if SFltb (to_double (binary32 w)) undef then 0 else w) data.

(** ** Daily files for the worked examples *)

(** The four bytes of a 32-bit word, least significant first. *)
Definition byte_at (w : Z) (i : Z) : ascii :=
  ascii_of_N (Z.to_N (Z.land (Z.shiftr w (8 * i)) 255)).

Definition le_bytes (w : Z) : string :=
  String (byte_at w 0) (String (byte_at w 1)
    (String (byte_at w 2) (String (byte_at w 3) ""))).

Definition le_file (grid : list Z) : string :=
  fold_right (fun w rest => le_bytes w ++ rest) "" grid.

(** The float32 patterns of 1.0, -999.0 and -5.0. *)
Definition f32_one : Z := 1065353216.
Definition f32_undef : Z := 3296313344.
Definition f32_minus_five : Z := 3231711232.

(** A 2 x 2 grid, little-endian data, -999.0 for missing values. *)
Definition grid_2x2 : gmap string pyval :=
  <["xdef_count" := PyInt 2]>
    (<["ydef_count" := PyInt 2]>
       (<["little_endian" := PyBool true]>
          (<["undef" := PyFloat (double (-999) 0)]> ∅))).

(** The same with the start date of the archive. *)
Definition grid_2x2_1998 : gmap string pyval :=
  <["start_date" := PyDatetime (Datetime 1998 1 1)]> grid_2x2.

Definition day1 : string := "CMORPH_V1.0_RAW_0.25deg-DLY_00Z_19980101".
Definition day2 : string := "CMORPH_V1.0_RAW_0.25deg-DLY_00Z_19980102".

(** A work directory with the given entries and files. *)
Definition work_dir (listing : list string) (contents : list (string * string))
  : world :=
  World {[ "work" := listing ]}
        (list_to_map (map (fun nc => ("work/" ++ nc.1, nc.2)) contents))
        [].

(** ** Notions for the further properties *)

(** The (year, month) pairs in the order of the two nested loops of
    [ingest_cmorph_to_netcdf]: [for year in years: for month in range(1, 13)]. *)
Definition loop_months (years : list Z) : list (Z * Z) :=
  flat_map (fun y => map (fun m => (y, m)) (seqZ 1 12)) years.

(** The type of the value [_read_description] stores under each key. *)
Definition entry_typed (key : string) (v : pyval) : bool :=
  match v with
  | PyFloat _ =>
      bool_decide (key ∈ ["undef"; "xdef_start"; "xdef_increment";
                          "ydef_start"; "ydef_increment"])
  | PyInt _ => bool_decide (key ∈ ["xdef_count"; "ydef_count"])
  | PyDatetime _ => String.eqb key "start_date"
  | PyBool _ => String.eqb key "little_endian"
  | PyStr _ => bool_decide (key ∈ ["variable_description"; "title"])
  end.

Definition typed_descriptor (d : gmap string pyval) : Prop :=
  map_Forall (fun key v => entry_typed key v = true) d.

(** A value that is not below zero; NaN is not below anything. *)
Definition not_negative (f : spec_float) : bool := negb (SFltb f float_zero).

(** The byte order in which the reader ends up decoding a file: that of the
    machine when the descriptor's flag is true, the other one when it is
    false (the bytes read in the order of the machine are swapped). *)
Definition decoding_order `{P : Platform} (little_endian : pyval) : bool :=
  if truthy little_endian then native_little_endian
  else negb native_little_endian.

(** The exceptions the aggregator can raise on a descriptor that came out
    of the parser. *)
Definition aggregator_error (e : exn) : bool :=
  match e with
  | KeyError | ValueError | OSError => true
  | _ => false
  end.

(** A 1 x 1 grid without sentinel policy, a third day, and the float32
    pattern of 2^53. *)
Definition grid_1x1 : gmap string pyval :=
  <["xdef_count" := PyInt 1]>
    (<["ydef_count" := PyInt 1]>
       (<["little_endian" := PyBool true]>
          (<["undef" := PyFloat (double (-999) 0)]> ∅))).

Definition day3 : string := "CMORPH_V1.0_RAW_0.25deg-DLY_00Z_19980103".

Definition f32_two_53 : Z := 1509949440.

(** [data_desc[key]] for the descriptor read from [path]. *)
Definition descriptor_field `{P : Platform} (w : world) (path key : string)
  : result pyval :=
  _read_description w path ≫= fun data_desc => getitem data_desc key.

(** ** [_download_daily_files]

    The retrieval of the daily files of a month, from the source: the names
    it builds, and the calls it makes for each day.  [bz2_copy src dst] and
    [gzip_copy src dst] stand for the two [with ... shutil.copyfileobj]
    statements that decompress [src] into [dst]; the message to the logger
    is left out. *)
Module Retrieval.

(** [str(n)] for an integer *)
Definition str (z : Z) : string := NilZero.string_of_int (Z.to_int z).

Fixpoint zeros (n : nat) : string :=
  match n with
  | O => ""
  | S n' => String "0" (zeros n')
  end.

(** [s.zfill(width)]: zeros on the left up to [width], after the sign if
    there is one. *)
Definition zfill (width : nat) (s : string) : string :=
  let pad := zeros (width - String.length s) in
  match s with
  | String c rest =>
      if Ascii.eqb c "+" || Ascii.eqb c "-"
      then String c (pad ++ rest)
      else pad ++ s
  | EmptyString => pad
  end.

(** [l[i]] for an integer [i]: a negative index counts from the end. *)
Definition list_item {A} (l : list A) (i : Z) : result A :=
  let n := Z.of_nat (length l) in
  if (0 <=? i) && (i <? n) then of_option IndexError (l !! Z.to_nat i)
  else if (- n <=? i) && (i <? 0)
       then of_option IndexError (l !! Z.to_nat (i + n))
       else Raise IndexError.

Definition year_month (year month : Z) : string :=
  str year ++ zfill 2 (str month).

Definition url_base (year month : Z) (obs_type : string) : string :=
  if String.eqb obs_type "raw"
  then "ftp://filsrv.cicsnc.org/olivier/data_CMORPH_NIDIS/" ++
       ("02_RAW/" ++ str year ++ "/" ++ year_month year month)
  else "ftp://filsrv.cicsnc.org/olivier/data_CMORPH_NIDIS/" ++
       ("01_GAUGE_ADJUSTED/" ++ str year ++ "/" ++ year_month year month).

(** [day] is the loop variable, from 0: the file is that of day [day + 1]. *)
Definition filename_unzipped (year month : Z) (obs_type : string) (day : Z)
  : string :=
  let year_month_day := year_month year month ++ zfill 2 (str (day + 1)) in
  if String.eqb obs_type "raw"
  then "CMORPH_V1.0_RAW_0.25deg-DLY_00Z_" ++ year_month_day
  else "CMORPH_V1.0_ADJ_0.25deg-DLY_00Z_" ++ year_month_day.

Definition zip_extension (year : Z) (obs_type : string) : string :=
  if String.eqb obs_type "raw" && (year <? 2004) then ".gz" else ".bz2".

(** The test that chooses [bz2.open] over [gzip.open]. *)
Definition uses_bz2 (year : Z) (obs_type : string) : bool :=
  (2004 <=? year) || String.eqb obs_type "adjusted".

Class Codecs : Type := {
  bz2_copy : string -> string -> io unit;
  gzip_copy : string -> string -> io unit;
}.

(** Leaving the world as it is, with a value. *)
Definition done_with {A} (a : A) : io A := fun w => (w, Ok a).

Section WithCodecs.
Context `{P : Platform} `{C : Codecs}.

(** The body of [for day in range(...)]; [files] is the list built so far. *)
Definition download_day (destination_dir : string) (year month : Z)
  (obs_type : string) (files : list string) (day : Z) : io (list string) :=
  let filename_unzipped := filename_unzipped year month obs_type day in
  let filename_zipped := filename_unzipped ++ zip_extension year obs_type in
  let file_url := url_base year month obs_type ++ "/" ++ filename_zipped in
  let local_filename_zipped := destination_dir ++ "/" ++ filename_zipped in
  let local_filename_unzipped := destination_dir ++ "/" ++ filename_unzipped in
  urlretrieve file_url local_filename_zipped;;
  (if uses_bz2 year obs_type
   then bz2_copy local_filename_zipped local_filename_unzipped
   else gzip_copy local_filename_zipped local_filename_unzipped);;
  let files := (files ++ [local_filename_unzipped])%list in
  os_remove local_filename_zipped;;
  done_with files.

Fixpoint download_days (destination_dir : string) (year month : Z)
  (obs_type : string) (days : list Z) (files : list string)
  : io (list string) :=
  match days with
  | [] => done_with files
  | day :: rest =>
      download_day destination_dir year month obs_type files day ≫=
      download_days destination_dir year month obs_type rest
  end.

Definition _download_daily_files (destination_dir : string) (year month : Z)
  (obs_type : string) : io (list string) :=
  let days_in_month :=
    if isleap year then _MONTH_DAYS_LEAP else _MONTH_DAYS_NONLEAP in
  lift (list_item days_in_month (month - 1)) ≫= fun days =>
  download_days destination_dir year month obs_type (seqZ 0 days) [].

End WithCodecs.

End Retrieval.

(** A retrieval that "decompresses" by writing nothing, for the examples. *)
#[global] Instance no_codecs : Retrieval.Codecs := {
  Retrieval.bz2_copy := fun _ _ w => (w, Ok ());
  Retrieval.gzip_copy := fun _ _ w => (w, Ok ());
}.

(** A platform whose retrievals and removals all succeed and change
    nothing, otherwise like [posix_offline]. *)
Definition posix_dry_run : Platform := {|
  os_sep := "/";
  native_little_endian := true;
  float_of_string := example_float;
  strptime_dbY := example_strptime;
  urlretrieve := fun _ _ w => (w, Ok ());
  os_remove := fun _ w => (w, Ok ());
  _download_daily_files := fun _ _ _ _ => offline;
  netcdf_accepts := fun _ _ => true;
|}.

(** ** Notions for the run of the driver *)

(** The calls of [ingest_cmorph_to_netcdf] into netCDF4 from the opening of
    the dataset to the call of [_compute_days], and the closing of the
    dataset when the [with] block is left. *)
Definition dataset_skeleton (netcdf_file : string) (xdef_count ydef_count
  title : pyval) : list nc_call :=
  [NcDataset netcdf_file;
   NcCreateDimension "time" None;
   NcCreateDimension "lon" (Some xdef_count);
   NcCreateDimension "lat" (Some ydef_count);
   NcSetAttr "" "title" title;
   NcCreateVariable "time" "i4" ["time"] None;
   NcCreateVariable "lon" "f4" ["lon"] None;
   NcCreateVariable "lat" "f4" ["lat"] None;
   NcSetAttr "time" "units" (PyStr "days since 1800-01-01 00:00:00");
   NcSetAttr "lon" "units" (PyStr "degrees east");
   NcSetAttr "lat" "units" (PyStr "degrees north");
   NcClose].

(** A short descriptor of a 2-row grid with the given number of columns and
    start date. *)
Definition short_descriptor (xdef_count start_date : string) : string :=
  "TITLE CMORPH" ++ nl ++
  "XDEF " ++ xdef_count ++ " LINEAR 0.125 0.25" ++ nl ++
  "YDEF 2 LINEAR -59.875 0.25" ++ nl ++
  "TDEF 99999 LINEAR " ++ start_date ++ " 1dy" ++ nl.

(** A world with two descriptors: the one of the work directory, with two
    columns, and another one elsewhere, with three. *)
Definition two_descriptors : world :=
  World ∅
    (<["work/data_descriptor.txt" := short_descriptor "2" "01jan1998"]>
       {[ "elsewhere.ctl" := short_descriptor "3" "01jan1998" ]})
    [].

(** The host of [posix_offline] with a [strptime] that also knows
    1 January 1700, a date a century before the epoch 1800 that the driver
    gives the time axis. *)
Definition strptime_1700 (s : string) : option datetime :=
  if String.eqb s "01jan1700" then Some (Datetime 1700 1 1)
  else example_strptime s.

Definition posix_offline_1700 : Platform := {|
  os_sep := "/";
  native_little_endian := true;
  float_of_string := example_float;
  strptime_dbY := strptime_1700;
  urlretrieve := fun _ _ => offline;
  os_remove := example_remove;
  _download_daily_files := fun _ _ _ _ => offline;
  netcdf_accepts := fun _ _ => true;
|}.

(** ** [_frange]

    The generator is consumed by [list(_frange(start, stop, step))].  Its
    [<] and [+=] are those of the values it is given (floats in the driver:
    [SFltb] and [double_add]).  Nothing makes the loop end: [fuel] bounds the
    number of tests of [i < stop], and [None] says that the bound was reached
    before the test failed. *)
Section Frange.
Context {A : Type} (lt : A -> A -> bool) (add : A -> A -> A).

Fixpoint _frange (fuel : nat) (start stop step : A) : option (list A) :=
  match fuel with
  | O => None
  | S fuel' =>
      if lt start stop
      then cons start <$> _frange fuel' (add start step) stop step
      else Some []
  end.

(** The value of [i] after [k] rounds of [i += step]. *)
Fixpoint frange_value (start step : A) (k : nat) : A :=
  match k with
  | O => start
  | S k' => frange_value (add start step) step k'
  end.

End Frange.

(** [a * b] on floats. *)
Definition double_mul : spec_float -> spec_float -> spec_float :=
  SFmul 53 1024.

(** The float [0.1]: [0x1.999999999999ap-4]. *)
Definition tenth : spec_float := double 7205759403792794 (-56).

(** * Properties *)

(** ** The built-ins on concrete inputs *)

Example int_plain : int "1998" = Ok 1998.
Proof. reflexivity. Qed.

Example int_forms :
  int " 199" = Ok 199 /\ int "+199" = Ok 199 /\ int "1_99" = Ok 199 /\
  int "-0" = Ok 0 /\ int "00" = Ok 0 /\ int " 1" = Ok 1 /\
  int "199 " = Ok 199.
Proof. repeat split; reflexivity. Qed.

Example int_rejects :
  int "" = Raise ValueError /\ int "_199" = Raise ValueError /\
  int "199_" = Raise ValueError /\ int "1__9" = Raise ValueError /\
  int "+ 12" = Raise ValueError /\ int "0x10" = Raise ValueError /\
  int "1 2" = Raise ValueError /\ int "ptor" = Raise ValueError.
Proof. repeat split; reflexivity. Qed.

Example split_words :
  split "XDEF 1440 LINEAR    0.125  0.25" =
  ["XDEF"; "1440"; "LINEAR"; "0.125"; "0.25"].
Proof. reflexivity. Qed.

Example split_blank : split "   " = [] /\ split "" = [].
Proof. split; reflexivity. Qed.

Example slice_examples :
  slice_from_end "CMORPH_V1.0_RAW_0.25deg-DLY_00Z_19980105" 8 4 = "1998" /\
  slice_from_end "CMORPH_V1.0_RAW_0.25deg-DLY_00Z_19980105" 4 2 = "01" /\
  slice_from_end "data_descriptor.txt" 8 4 = "ptor" /\
  slice_from_end "abc" 8 4 = "".
Proof. repeat split; reflexivity. Qed.

Example readlines_examples :
  let cr := String "013" "" in
  readlines ("a" ++ cr ++ nl ++ "b" ++ cr ++ "c" ++ nl ++ nl ++ "d") =
    ["a" ++ nl; "b" ++ nl; "c" ++ nl; nl; "d"] /\
  readlines ("UNDEF 1" ++ nl ++ "  " ++ nl ++ "X" ++ cr ++ cr ++ nl) =
    ["UNDEF 1" ++ nl; "  " ++ nl; "X" ++ nl; nl] /\
  join " " (drop 1 (split "TITLE  a  b ")) = "a b" /\
  join " " (drop 4 ["x"]) = "".
Proof. repeat split; reflexivity. Qed.

Example toordinal_examples :
  toordinal (Datetime 1 1 1) = 1 /\ toordinal (Datetime 1998 1 1) = 729390 /\
  toordinal (Datetime 2017 12 31) = 736694.
Proof. repeat split; reflexivity. Qed.

(** ** The time axis generator *)

(** Subtracting the day number (an integer) from a datetime is refused by
    Python, whatever the dates. *)
Lemma datetime_sub_int (d : datetime) (z : Z) :
  datetime_sub d (PyInt z) = Raise TypeError.
Proof. reflexivity. Qed.

(** Past the validation, [_compute_days] can only raise: either a year is
    outside 1..9999, or the subtraction above is reached. *)
Lemma compute_days_raises (yi yf ys : Z) :
  exists e, _compute_days yi yf ys = Raise e.
Proof.
  unfold _compute_days.
  destruct (yi <? ys); [by eexists|].
  destruct (datetime_new yi 1 1) as [d|e]; [|by eexists]. cbn.
  destruct (datetime_new yf 12 31) as [l|e]; [|by eexists]. cbn.
  by eexists.
Qed.

(** C1 (the code departs from the claim): on the valid input
    [(1998, 2017, 1900)] the time axis generator returns no sequence at all,
    it raises [TypeError]; and no input makes it return one. *)
Theorem compute_days_returns_nothing :
  _compute_days 1998 2017 1900 = Raise TypeError /\
  forall yi yf ys, is_ok (_compute_days yi yf ys) = false.
Proof.
  split; [reflexivity|].
  intros yi yf ys. destruct (compute_days_raises yi yf ys) as [e ->].
  reflexivity.
Qed.

(** With years that [datetime] accepts and an epoch not after the first
    year, the exception is the [TypeError] of the subtraction. *)
Lemma compute_days_type_error (yi yf ys : Z) :
  ys <= yi -> 1 <= yi <= 9999 -> 1 <= yf <= 9999 ->
  _compute_days yi yf ys = Raise TypeError.
Proof.
  intros Hs Hi Hf. unfold _compute_days.
  destruct (yi <? ys) eqn:E; [lia|].
  assert (H1 : datetime_new yi 1 1 = Ok (Datetime yi 1 1)).
  { unfold datetime_new, days_in_month, month_days.
    destruct (isleap yi); cbn;
      (destruct (1 <=? yi) eqn:?; [|lia]);
      (destruct (yi <=? 9999) eqn:?; [|lia]); reflexivity. }
  assert (H2 : datetime_new yf 12 31 = Ok (Datetime yf 12 31)).
  { unfold datetime_new, days_in_month, month_days.
    destruct (isleap yf); cbn;
      (destruct (1 <=? yf) eqn:?; [|lia]);
      (destruct (yf <=? 9999) eqn:?; [|lia]); reflexivity. }
  rewrite H1. cbn. rewrite H2. reflexivity.
Qed.

(** An epoch year after the first data year is rejected with [ValueError],
    whatever the final year: the test is the first statement of the
    function. *)
Lemma compute_days_late_epoch (year_initial year_final year_since : Z) :
  year_initial < year_since ->
  _compute_days year_initial year_final year_since = Raise ValueError.
Proof.
  intros H. unfold _compute_days.
  destruct (year_initial <? year_since) eqn:E; [done|lia].
Qed.

(** *** The call in [ingest_cmorph_to_netcdf] *)

Lemma bind_positional_error params args bound e :
  bind_positional params args bound = Raise e -> e = TypeError.
Proof.
  revert params bound.
  induction args as [|a args IH]; intros [|p params] bound; cbn;
    try discriminate; [congruence|apply IH].
Qed.

Lemma bind_keywords_unknown kwargs bound k v :
  (k, v) ∈ kwargs -> k ∉ _compute_days_params ->
  bind_keywords kwargs bound = Raise TypeError.
Proof.
  intros Hin Hk. revert bound.
  induction kwargs as [|[k' v'] kwargs IH]; intros bound.
  - by apply not_elem_of_nil in Hin.
  - cbn [bind_keywords]. apply elem_of_cons in Hin as [Heq|Hin].
    + injection Heq as <- <-. by rewrite bool_decide_eq_false_2.
    + case_bool_decide; [|done]. destruct (bound !! k'); [done|].
      by apply IH.
Qed.

(** A keyword that is not a parameter makes the call raise [TypeError]
    before the body of [_compute_days] runs. *)
Lemma call_compute_days_unknown_keyword args kwargs k v :
  (k, v) ∈ kwargs -> k ∉ _compute_days_params ->
  call_compute_days args kwargs = Raise TypeError.
Proof.
  intros Hin Hk. unfold call_compute_days.
  destruct (bind_positional _ args ∅) as [b|e] eqn:E.
  - cbn. by rewrite (bind_keywords_unknown _ _ _ _ Hin Hk).
  - cbn. by rewrite (bind_positional_error _ _ _ _ E).
Qed.

(** ** The time index *)

Example time_index_examples :
  time_index 1999 1998 3 = 14 /\ time_index 1998 1998 1 = 0.
Proof. split; reflexivity. Qed.

Lemma time_index_formula (year start_year month : Z) :
  time_index year start_year month = (year - start_year) * 12 + (month - 1).
Proof. unfold time_index. lia. Qed.

(** ** The descriptor parser *)

Example example_descriptor_parsed :
  entries <$> _read_description
                (descriptor_only "d.ctl" example_descriptor) "d.ctl" =
  Ok [("undef", Some (PyFloat (double (-999) 0)));
      ("xdef_count", Some (PyInt 1440));
      ("xdef_start", Some (PyFloat (double 1 (-3))));
      ("xdef_increment", Some (PyFloat (double 1 (-2))));
      ("ydef_count", Some (PyInt 480));
      ("ydef_start", Some (PyFloat (double (-479) (-3))));
      ("ydef_increment", Some (PyFloat (double 1 (-2))));
      ("start_date", Some (PyDatetime (Datetime 1998 1 1)));
      ("little_endian", Some (PyBool true));
      ("variable_description",
        Some (PyStr "CMORPH Version 1.o daily precipitation (mm)"));
      ("title",
        Some (PyStr "CMORPH Version 1.0BETA Version, daily precip from 00Z-24Z"))].
Proof. vm_compute. reflexivity. Qed.

Ltac line_cases H :=
  cbv [mbind result_bind mret result_ret] in H;
  repeat match type of H with
  | context [String.eqb ?a ?b] => destruct (String.eqb a b)
  | context [match ?r with Ok _ => _ | Raise _ => _ end] =>
      destruct r; try discriminate H
  end.

Section ParserProperties.
Context `{P : Platform}.

Lemma item_head {A} (l : list A) : item l 0 = of_option IndexError (head l).
Proof. by destruct l. Qed.

(** A line without any token makes [words[0]] raise. *)
Lemma blank_line_raises (d : gmap string pyval) (line : string) :
  split line = [] -> read_description_line d line = Raise IndexError.
Proof. intros H. unfold read_description_line. by rewrite H. Qed.

(** A line whose leading token is none of the recognized ones leaves the
    dictionary as it was. *)
Lemma unrecognized_line_ignored (d : gmap string pyval) (line w0 : string) :
  leading_token line = Some w0 -> w0 ∉ recognized ->
  read_description_line d line = Ok d.
Proof.
  unfold read_description_line, leading_token. rewrite item_head.
  intros -> Hw. cbn.
  repeat match goal with
  | |- context [String.eqb w0 ?k] =>
      destruct (String.eqb w0 k) eqn:E;
      [apply String.eqb_eq in E; subst; exfalso; apply Hw;
       unfold recognized; set_solver|clear E]
  end.
  reflexivity.
Qed.

Lemma read_description_lines_app (d : gmap string pyval) (l1 l2 : list string) :
  read_description_lines d (l1 ++ l2)%list =
  read_description_lines d l1 ≫= fun d' => read_description_lines d' l2.
Proof.
  revert d. induction l1 as [|line l1 IH]; intros d; [reflexivity|].
  cbn. destruct (read_description_line d line); cbn; [apply IH|reflexivity].
Qed.

(** Such a line can be taken out of the descriptor without changing what
    the parser does. *)
Lemma unrecognized_line_absent (d : gmap string pyval) (l1 l2 : list string)
  (line w0 : string) :
  leading_token line = Some w0 -> w0 ∉ recognized ->
  read_description_lines d (l1 ++ line :: l2)%list =
  read_description_lines d (l1 ++ l2)%list.
Proof.
  intros H Hw. rewrite !read_description_lines_app.
  destruct (read_description_lines d l1) as [d1|e]; cbn; [|reflexivity].
  by rewrite (unrecognized_line_ignored d1 line w0 H Hw).
Qed.

(** Whether a line is accepted does not depend on the dictionary. *)
Lemma line_accepted_any_dict (d d0 : gmap string pyval) (line : string) :
  is_ok (read_description_line d line) = is_ok (read_description_line d0 line).
Proof.
  unfold read_description_line.
  cbv [mbind result_bind mret result_ret].
  repeat match goal with
  | |- context [String.eqb ?a ?b] => destruct (String.eqb a b)
  | |- context [match ?r with Ok _ => _ | Raise _ => _ end] => destruct r
  end; reflexivity.
Qed.

Lemma lines_accepted_returns (d : gmap string pyval) (lines : list string) :
  lines_accepted lines = true ->
  exists d', read_description_lines d lines = Ok d'.
Proof.
  unfold lines_accepted. revert d.
  induction lines as [|line lines IH]; intros d H; [by eexists|].
  cbn in H. apply andb_prop in H as [H1 H2]. cbn.
  rewrite <- (line_accepted_any_dict d) in H1.
  destruct (read_description_line d line) as [d1|e]; [|discriminate].
  cbn. by apply IH.
Qed.

(** A line that does not start with a required keyword leaves the keys of
    that keyword alone. *)
Lemma line_keeps_keys (d d' : gmap string pyval) (line keyword key : string) :
  keyword ∈ required_keywords -> key ∈ keys_of keyword ->
  read_description_line d line = Ok d' ->
  leading_token line <> Some keyword ->
  d' !! key = d !! key.
Proof.
  intros Hkw Hkey. unfold read_description_line, leading_token.
  rewrite item_head.
  destruct (head (split line)) as [w0|]; [|discriminate]. cbn.
  intros H Hk.
  assert (Hne : w0 <> keyword) by congruence. clear Hk.
  unfold required_keywords in Hkw.
  repeat (apply elem_of_cons in Hkw as [->|Hkw]);
    [| | | |by apply not_elem_of_nil in Hkw];
    cbn in Hkey;
    repeat (apply elem_of_cons in Hkey as [->|Hkey]);
    try (by apply not_elem_of_nil in Hkey);
    match goal with
    | _ : w0 <> ?k |- _ =>
        destruct (String.eqb w0 k) eqn:E;
        [by apply String.eqb_eq in E|clear E]
    end;
    line_cases H; injection H as <-; by rewrite ?lookup_insert_ne.
Qed.

Lemma never_appears_cons (keyword line : string) (lines : list string) :
  never_appears keyword (line :: lines) = true ->
  leading_token line <> Some keyword /\ never_appears keyword lines = true.
Proof.
  unfold never_appears. cbn. intros H. apply andb_prop in H as [H1 H2].
  split; [|done]. by apply negb_true_iff, bool_decide_eq_false in H1.
Qed.

Lemma lines_keep_keys (d d' : gmap string pyval) (lines : list string)
  (keyword key : string) :
  keyword ∈ required_keywords -> key ∈ keys_of keyword ->
  never_appears keyword lines = true ->
  read_description_lines d lines = Ok d' ->
  d' !! key = d !! key.
Proof.
  intros Hkw Hkey. revert d.
  induction lines as [|line lines IH]; intros d Hn H.
  - cbn in H. by injection H as <-.
  - apply never_appears_cons in Hn as [Hl Hn]. cbn in H.
    destruct (read_description_line d line) as [d1|e] eqn:E; [|discriminate].
    cbn in H. rewrite (IH d1 Hn H).
    by apply (line_keeps_keys d d1 line keyword key).
Qed.

(** C3 (amended): the parser has no check for missing keywords.  When one
    of UNDEF, XDEF, YDEF, TDEF never leads a line of a descriptor whose
    lines are each accepted, the parser returns a dictionary, and the keys
    of that keyword are absent from it. *)
Theorem missing_keyword_gives_missing_keys (w : world) (path text keyword : string) :
  files w !! path = Some text ->
  keyword ∈ required_keywords ->
  never_appears keyword (readlines text) = true ->
  lines_accepted (readlines text) = true ->
  exists d, _read_description w path = Ok d /\
            forall key, key ∈ keys_of keyword -> d !! key = None.
Proof.
  intros Hf Hkw Hn Ha.
  destruct (lines_accepted_returns ∅ _ Ha) as [d Hd].
  exists d. split.
  - unfold _read_description, read_file. by rewrite Hf.
  - intros key Hkey.
    by rewrite (lines_keep_keys ∅ d _ keyword key Hkw Hkey Hn Hd).
Qed.

End ParserProperties.

Lemma missing_keyword_gives_missing_keys_witness :
  exists d,
    _read_description (descriptor_only "d.ctl" ("TITLE CMORPH" ++ nl)) "d.ctl"
      = Ok d /\
    forall key, key ∈ keys_of "XDEF" -> d !! key = None.
Proof.
  apply (missing_keyword_gives_missing_keys
           (descriptor_only "d.ctl" ("TITLE CMORPH" ++ nl)) "d.ctl"
           ("TITLE CMORPH" ++ nl) "XDEF").
  - reflexivity.
  - unfold required_keywords. set_solver.
  - reflexivity.
  - reflexivity.
Defined.

(** C3, the claim as stated fails: a descriptor with none of the four
    keywords is parsed without any error, into a dictionary that holds the
    title only. *)
Lemma descriptor_without_keywords_accepted :
  forallb (fun keyword => never_appears keyword (readlines ("TITLE CMORPH" ++ nl)))
    required_keywords = true /\
  entries <$> _read_description
                (descriptor_only "d.ctl" ("TITLE CMORPH" ++ nl)) "d.ctl" =
  Ok [("undef", None); ("xdef_count", None); ("xdef_start", None);
      ("xdef_increment", None); ("ydef_count", None); ("ydef_start", None);
      ("ydef_increment", None); ("start_date", None); ("little_endian", None);
      ("variable_description", None); ("title", Some (PyStr "CMORPH"))].
Proof. split; vm_compute; reflexivity. Qed.

(** C6 (the code departs from the claim): a blank line is not ignored.  The
    descriptor below is accepted without its second line, which is empty,
    and raises [IndexError] with it. *)
Theorem blank_line_is_not_ignored :
  _read_description
    (descriptor_only "d.ctl"
       ("TITLE CMORPH" ++ nl ++ nl ++ "OPTIONS template little_endian" ++ nl))
    "d.ctl" = Raise IndexError /\
  entries <$> _read_description
    (descriptor_only "d.ctl"
       ("TITLE CMORPH" ++ nl ++ "OPTIONS template little_endian" ++ nl))
    "d.ctl" =
  Ok [("undef", None); ("xdef_count", None); ("xdef_start", None);
      ("xdef_increment", None); ("ydef_count", None); ("ydef_start", None);
      ("ydef_increment", None); ("start_date", None);
      ("little_endian", Some (PyBool true));
      ("variable_description", None); ("title", Some (PyStr "CMORPH"))].
Proof. split; vm_compute; reflexivity. Qed.

(** ** The daily grid reader *)

Example float32_patterns :
  binary32 f32_one = S754_finite false 8388608 (-23) /\
  to_double (binary32 f32_one) = double 1 0 /\
  to_double (binary32 f32_undef) = double (-999) 0 /\
  to_double (binary32 f32_minus_five) = double (-5) 0 /\
  byteswap32 f32_one = 32831 /\
  words_of_bytes true (le_file [f32_one; f32_undef]) = [f32_one; f32_undef] /\
  words_of_bytes false (le_file [f32_one]) = [32831].
Proof. repeat split; vm_compute; reflexivity. Qed.

Section ReaderProperties.
Context `{P : Platform}.

(** What the reader returns for a file it can read. *)
Lemma read_daily_readable (w : world) (dir file content : string)
  (desc : gmap string pyval) (le undef : pyval) (below_zero : bool) :
  files w !! sep_join dir file = Some content ->
  desc !! "little_endian" = Some le ->
  desc !! "undef" = Some undef ->
  lt_zero undef = Ok below_zero ->
  read_daily w dir desc file =
  Ok (if below_zero then zero_negative (corrected le content)
      else corrected le content).
Proof.
  intros Hf Hle Hu Hz.
  unfold read_daily, np_fromfile, read_file, getitem, corrected.
  rewrite Hf, Hle, Hu. cbn. rewrite Hz. cbn.
  by destruct (truthy le), below_zero.
Qed.

(** C2 (amended): the threshold of the reader is zero, not the sentinel.
    When [undef < 0] holds, exactly the elements that are strictly less than
    zero after the byte-order correction are replaced with zero and all
    others are left as they are; when it does not hold, nothing is
    replaced. *)
Theorem reader_zeroes_negative_elements (w : world) (dir file content : string)
  (desc : gmap string pyval) (le undef : pyval) (below_zero : bool) :
  files w !! sep_join dir file = Some content ->
  desc !! "little_endian" = Some le ->
  desc !! "undef" = Some undef ->
  lt_zero undef = Ok below_zero ->
  exists data,
    read_daily w dir desc file = Ok data /\
    length data = length (corrected le content) /\
    forall (i : nat) (x : Z),
      corrected le content !! i = Some x ->
      data !! i =
      Some (if below_zero && SFltb (binary32 x) float_zero then 0 else x).
Proof.
  intros Hf Hle Hu Hz.
  rewrite (read_daily_readable w dir file content desc le undef below_zero)
    by done.
  eexists. split; [reflexivity|].
  destruct below_zero; cbn [andb].
  - split; [apply length_map|].
    intros i x Hx. unfold zero_negative.
    by rewrite list_lookup_fmap, Hx.
  - split; [reflexivity|]. by intros i x ->.
Qed.

End ReaderProperties.

Lemma reader_zeroes_negative_elements_witness :
  exists data,
    read_daily
      (work_dir [day1] [(day1, le_file [f32_minus_five; f32_undef; f32_one])])
      "work" grid_2x2 day1 = Ok data /\
    length data =
    length (corrected (PyBool true)
              (le_file [f32_minus_five; f32_undef; f32_one])) /\
    forall (i : nat) (x : Z),
      corrected (PyBool true) (le_file [f32_minus_five; f32_undef; f32_one])
        !! i = Some x ->
      data !! i = Some (if true && SFltb (binary32 x) float_zero then 0 else x).
Proof.
  apply (reader_zeroes_negative_elements
           (work_dir [day1]
              [(day1, le_file [f32_minus_five; f32_undef; f32_one])])
           "work" day1 (le_file [f32_minus_five; f32_undef; f32_one])
           grid_2x2 (PyBool true) (PyFloat (double (-999) 0)) true);
    reflexivity.
Defined.

(** C2, the claim as stated fails: with the sentinel -999.0, the elements
    -5.0 and -999.0 are not strictly less than the sentinel, so the policy
    of the claim keeps them; the reader turns both into zero. *)
Lemma reader_zeroes_above_undef :
  zero_below_undef (double (-999) 0) [f32_minus_five; f32_undef; f32_one] =
    [f32_minus_five; f32_undef; f32_one] /\
  read_daily
    (work_dir [day1] [(day1, le_file [f32_minus_five; f32_undef; f32_one])])
    "work" grid_2x2 day1 = Ok [0; 0; f32_one].
Proof. split; vm_compute; reflexivity. Qed.

(** ** The monthly aggregator *)

(** C9: a 2 x 2 grid with sentinel -999.0 and two daily files of January
    1998 holding [1,1,1,1] and [-999,1,1,1] add up to [1,2,2,2], in either
    order of the directory listing. *)
Theorem january_1998_aggregate :
  _read_daily_cmorph_to_monthly_sum
    (work_dir [day1; day2]
       [(day1, le_file [f32_one; f32_one; f32_one; f32_one]);
        (day2, le_file [f32_undef; f32_one; f32_one; f32_one])])
    "work" grid_2x2 1998 1 =
  Ok [double 1 0; double 2 0; double 2 0; double 2 0] /\
  _read_daily_cmorph_to_monthly_sum
    (work_dir [day2; day1]
       [(day1, le_file [f32_one; f32_one; f32_one; f32_one]);
        (day2, le_file [f32_undef; f32_one; f32_one; f32_one])])
    "work" grid_2x2 1998 1 =
  Ok [double 1 0; double 2 0; double 2 0; double 2 0].
Proof. split; vm_compute; reflexivity. Qed.

(** *** Digit strings and [int] *)

Lemma digit_facts (c : ascii) :
  isdigit c = true ->
  int_space c = false /\ Ascii.eqb c "_" = false /\
  0 <= digit_value c <= 9 /\
  (forall s, int_of_string (String c s) = int_digits false 0 (String c s)).
Proof.
  destruct c as [[] [] [] [] [] [] [] []]; intros H;
    try discriminate H; repeat split; try reflexivity; vm_compute; congruence.
Qed.

Lemma digit_value_inj (c c' : ascii) :
  digit_value c = digit_value c' -> c = c'.
Proof.
  unfold digit_value, code. intros H.
  assert (N_of_ascii c = N_of_ascii c') as E by lia.
  by rewrite <- (ascii_N_embedding c), <- (ascii_N_embedding c'), E.
Qed.

Lemma int_digits_decimal (s : string) (b : bool) (acc : Z) :
  all_chars isdigit s = true -> s <> "" ->
  int_digits b acc s = Some (decimal acc s).
Proof.
  revert b acc. induction s as [|c s IH]; intros b acc H Hne; [done|].
  cbn in H. apply andb_prop in H as [Hc Hs]. cbn. rewrite Hc.
  destruct s as [|c' s']; [reflexivity|]. by apply IH.
Qed.

Lemma int_of_digit_string (s : string) :
  all_chars isdigit s = true -> s <> "" ->
  int_of_string s = Some (decimal 0 s).
Proof.
  intros H Hne. destruct s as [|c s]; [done|].
  pose proof H as H'. cbn in H'. apply andb_prop in H' as [Hc _].
  destruct (digit_facts c Hc) as (_ & _ & _ & ->).
  by apply int_digits_decimal.
Qed.

Lemma decimal_shift (s : string) (acc : Z) :
  decimal acc s = acc * 10 ^ Z.of_nat (String.length s) + decimal 0 s.
Proof.
  revert acc. induction s as [|c s IH]; intros acc.
  - cbn. lia.
  - cbn [decimal String.length]. rewrite IH, (IH (10 * 0 + digit_value c)).
    rewrite Nat2Z.inj_succ, Z.pow_succ_r by lia. lia.
Qed.

Lemma decimal_bounds (s : string) :
  all_chars isdigit s = true ->
  0 <= decimal 0 s < 10 ^ Z.of_nat (String.length s).
Proof.
  induction s as [|c s IH]; intros H.
  - cbn. lia.
  - cbn in H. apply andb_prop in H as [Hc Hs].
    destruct (digit_facts c Hc) as (_ & _ & Hd & _).
    specialize (IH Hs).
    cbn [decimal String.length]. rewrite decimal_shift.
    rewrite Nat2Z.inj_succ, Z.pow_succ_r by lia. nia.
Qed.

(** Digit strings of one length that write the same number are the same
    string. *)
Lemma decimal_inj (s t : string) :
  all_chars isdigit s = true -> all_chars isdigit t = true ->
  String.length s = String.length t ->
  decimal 0 s = decimal 0 t -> s = t.
Proof.
  revert t. induction s as [|c s IH]; intros [|c' t] Hs Ht Hl He;
    try discriminate Hl; [reflexivity|].
  cbn in Hs, Ht. apply andb_prop in Hs as [Hc Hs].
  apply andb_prop in Ht as [Hc' Ht].
  injection Hl as Hl.
  cbn [decimal] in He. rewrite (decimal_shift s), (decimal_shift t) in He.
  rewrite <- Hl in He.
  pose proof (decimal_bounds s Hs) as Bs.
  pose proof (decimal_bounds t Ht) as Bt. rewrite <- Hl in Bt.
  destruct (digit_facts c Hc) as (_ & _ & Hd & _).
  destruct (digit_facts c' Hc') as (_ & _ & Hd' & _).
  assert (digit_value c = digit_value c') as Hv by nia.
  rewrite Hv in He.
  f_equal; [by apply digit_value_inj|apply IH; try done; lia].
Qed.

Lemma digits_spec (n : nat) (s : string) :
  digits n s = true -> String.length s = n /\ all_chars isdigit s = true.
Proof.
  unfold digits. intros H. apply andb_prop in H as [H1 H2].
  split; [by apply Nat.eqb_eq|done].
Qed.

(** On strings of [n > 0] digits, [int] reads the number written, and two
    of them are equal as numbers exactly when they are equal as strings. *)
Lemma int_of_digits (n : nat) (s : string) :
  digits (S n) s = true -> int s = Ok (decimal 0 s).
Proof.
  intros H. apply digits_spec in H as [Hl Hd].
  unfold int. rewrite int_of_digit_string; [done|done|].
  by destruct s.
Qed.

Lemma digits_eqb (n : nat) (s t : string) :
  digits n s = true -> digits n t = true ->
  (decimal 0 s =? decimal 0 t) = String.eqb s t.
Proof.
  intros Hs Ht. apply digits_spec in Hs as [Hls Hs].
  apply digits_spec in Ht as [Hlt Ht].
  destruct (String.eqb_spec s t) as [->|Hne]; [apply Z.eqb_refl|].
  apply Z.eqb_neq. intros He. apply Hne.
  apply decimal_inj; congruence.
Qed.

Lemma Ok_inj {A} (a b : A) : Ok a = Ok b -> a = b.
Proof. intros H. by injection H. Qed.

(** [np.zeros] returns the zeros it was asked for or refuses the size. *)
Lemma np_zeros_returns (n : Z) (zeros : list spec_float) :
  np_zeros n = Ok zeros ->
  0 <= n /\ n * 8 <= NPY_MAX_INTP /\
  zeros = replicate (Z.to_nat n) float_zero.
Proof.
  unfold np_zeros.
  destruct (Z.ltb_spec n 0) as [|H0]; [discriminate|].
  destruct (Z.ltb_spec NPY_MAX_INTP (n * 8)) as [|H1]; [discriminate|].
  intros Hz%Ok_inj. by subst zeros.
Qed.

Lemma np_zeros_accepts (n : Z) :
  0 <= n -> n * 8 <= NPY_MAX_INTP ->
  np_zeros n = Ok (replicate (Z.to_nat n) float_zero).
Proof.
  intros H0 H1. unfold np_zeros.
  destruct (Z.ltb_spec n 0); [lia|].
  destruct (Z.ltb_spec NPY_MAX_INTP (n * 8)); [lia|]. reflexivity.
Qed.

Lemma np_zeros_refuses (n : Z) (e : exn) :
  np_zeros n = Raise e -> e = ValueError.
Proof.
  unfold np_zeros. destruct (n <? 0); [congruence|].
  destruct (NPY_MAX_INTP <? n * 8); [congruence|discriminate].
Qed.

(** The in-place addition keeps the length of the sum. *)
Lemma iadd_length (summed : list spec_float) (data : list Z)
  (summed' : list spec_float) :
  iadd summed data = Ok summed' -> length summed' = length summed.
Proof.
  unfold iadd.
  destruct (Nat.eqb_spec (length (map (fun w => to_double (binary32 w)) data))
              (length summed)) as [E|_].
  - intros H%Ok_inj. subst summed'. rewrite length_zip_with. lia.
  - destruct (map _ data) as [|v [|v' l]];
      try (intros H; discriminate H).
    intros H%Ok_inj. subst summed'. apply length_map.
Qed.

Section AggregatorProperties.
Context `{P : Platform}.

Lemma monthly_sum_step_inversion (w : world) (dir : string)
  (desc : gmap string pyval) (data_year data_month : Z)
  (summed summed' : list spec_float) (file : string) :
  monthly_sum_step w dir desc data_year data_month summed file = Ok summed' ->
  summed' = summed \/
  exists data, read_daily w dir desc file = Ok data /\
               iadd summed data = Ok summed'.
Proof.
  unfold monthly_sum_step. intros H.
  destruct (int (slice_from_end file 8 4)) as [fy|]; [|discriminate].
  destruct (int (slice_from_end file 4 2)) as [fm|]; [|discriminate].
  cbv [mbind result_bind mret result_ret] in H.
  destruct (negb (fy =? data_year)); [left; by apply Ok_inj in H|].
  destruct (negb (fm =? data_month)); [left; by apply Ok_inj in H|].
  destruct (read_daily w dir desc file) as [data|]; [|discriminate].
  right. by exists data.
Qed.

Lemma monthly_sum_loop_invariant (Q : list spec_float -> Prop) (w : world)
  (dir : string) (desc : gmap string pyval) (data_year data_month : Z) :
  (forall summed file summed', Q summed ->
     monthly_sum_step w dir desc data_year data_month summed file
       = Ok summed' -> Q summed') ->
  forall listing summed summed', Q summed ->
    monthly_sum_loop w dir desc data_year data_month listing summed
      = Ok summed' -> Q summed'.
Proof.
  intros Hstep. induction listing as [|file listing IH];
    intros summed summed' HQ H.
  - cbn in H. congruence.
  - cbn in H.
    destruct (monthly_sum_step w dir desc data_year data_month summed file)
      as [s1|] eqn:E; [|discriminate].
    cbn in H. apply (IH s1 summed'); [|done]. by apply (Hstep summed file).
Qed.

(** On a conventionally named file the test of the loop body is the
    comparison of the characters with the digits of the target. *)
Lemma step_conventional (w : world) (dir : string) (desc : gmap string pyval)
  (year_digits month_digits name : string) (summed : list spec_float) :
  conventional name = true ->
  digits 4 year_digits = true -> digits 2 month_digits = true ->
  monthly_sum_step w dir desc (decimal 0 year_digits) (decimal 0 month_digits)
    summed name =
  if selected year_digits month_digits name
  then read_daily w dir desc name ≫= iadd summed
  else Ok summed.
Proof.
  intros Hc Hy Hm. unfold conventional in Hc.
  apply andb_prop in Hc as [Hcy Hcm].
  unfold monthly_sum_step, selected.
  rewrite (int_of_digits 3 _ Hcy), (int_of_digits 1 _ Hcm). cbn.
  rewrite (digits_eqb 4 _ _ Hcy Hy), (digits_eqb 2 _ _ Hcm Hm).
  destruct (String.eqb (slice_from_end name 8 4) year_digits); [|reflexivity].
  destruct (String.eqb (slice_from_end name 4 2) month_digits); reflexivity.
Qed.

Lemma loop_conventional (w : world) (dir : string) (desc : gmap string pyval)
  (year_digits month_digits : string) (listing : list string)
  (summed : list spec_float) :
  forallb conventional listing = true ->
  digits 4 year_digits = true -> digits 2 month_digits = true ->
  monthly_sum_loop w dir desc (decimal 0 year_digits) (decimal 0 month_digits)
    listing summed =
  accumulate w dir desc
    (List.filter (selected year_digits month_digits) listing) summed.
Proof.
  intros Hc Hy Hm. revert summed.
  induction listing as [|name listing IH]; intros summed; [reflexivity|].
  cbn in Hc. apply andb_prop in Hc as [Hn Hc].
  cbn [monthly_sum_loop List.filter].
  rewrite (step_conventional w dir desc _ _ name summed Hn Hy Hm).
  destruct (selected year_digits month_digits name); cbn.
  - destruct (read_daily w dir desc name) as [data|e]; cbn; [|reflexivity].
    destruct (iadd summed data) as [summed'|e]; cbn; [|reflexivity].
    by apply IH.
  - by apply IH.
Qed.

(** X25: in a directory whose names all follow the convention (four digits
    at [[-8:-4]], two at [[-4:-2]]), for a grid of a size numpy accepts, the
    aggregator reads and adds up exactly the files whose characters at
    [[-8:-4]] are the four digits of the target year and at [[-4:-2]] the
    two digits of the target month, in the order of the listing; when there
    is none, it returns [x_count * y_count] zeros without raising. *)
Theorem monthly_sum_selects_by_name (w : world) (dir : string)
  (desc : gmap string pyval) (listing : list string)
  (year_digits month_digits : string) (x y : Z) :
  dirs w !! dir = Some listing ->
  desc !! "xdef_count" = Some (PyInt x) ->
  desc !! "ydef_count" = Some (PyInt y) ->
  0 <= x * y -> x * y * 8 <= NPY_MAX_INTP ->
  forallb conventional listing = true ->
  digits 4 year_digits = true -> digits 2 month_digits = true ->
  _read_daily_cmorph_to_monthly_sum w dir desc
    (decimal 0 year_digits) (decimal 0 month_digits) =
  accumulate w dir desc
    (List.filter (selected year_digits month_digits) listing)
    (replicate (Z.to_nat (x * y)) float_zero) /\
  (List.filter (selected year_digits month_digits) listing = [] ->
   _read_daily_cmorph_to_monthly_sum w dir desc
     (decimal 0 year_digits) (decimal 0 month_digits) =
   Ok (replicate (Z.to_nat (x * y)) float_zero)).
Proof.
  intros Hd Hx Hy Hxy Hmax Hc Hyd Hmd.
  assert (E : _read_daily_cmorph_to_monthly_sum w dir desc
                (decimal 0 year_digits) (decimal 0 month_digits) =
              accumulate w dir desc
                (List.filter (selected year_digits month_digits) listing)
                (replicate (Z.to_nat (x * y)) float_zero)).
  { unfold _read_daily_cmorph_to_monthly_sum, getitem, os_listdir.
    rewrite Hx, Hy, Hd. cbn -[np_zeros].
    rewrite (np_zeros_accepts _ Hxy Hmax). cbn.
    by apply loop_conventional. }
  split; [exact E|].
  intros Hnone. by rewrite E, Hnone.
Qed.

(** The names passed over before the first selected file do not touch the
    sum. *)
Lemma loop_passed_over (w : world) (dir : string) (desc : gmap string pyval)
  (data_year data_month : Z) (skipped rest : list string)
  (summed : list spec_float) :
  forallb (passed_over data_year data_month) skipped = true ->
  monthly_sum_loop w dir desc data_year data_month (skipped ++ rest)%list summed
  = monthly_sum_loop w dir desc data_year data_month rest summed.
Proof.
  induction skipped as [|name skipped IH]; intros H; [reflexivity|].
  cbn in H. apply andb_prop in H as [Hn H].
  cbn [app monthly_sum_loop]. unfold monthly_sum_step at 1.
  unfold passed_over in Hn. unfold int.
  destruct (int_of_string (slice_from_end name 8 4)) as [fy|]; [|discriminate].
  destruct (int_of_string (slice_from_end name 4 2)) as [fm|]; [|discriminate].
  cbn. destruct (fy =? data_year); cbn; [|by apply IH].
  cbn in Hn. destruct (fm =? data_month); [discriminate|]. cbn. by apply IH.
Qed.

(** The loop over a listing is the loop over its first part, then over the
    rest from the sum reached. *)
Lemma monthly_sum_loop_app (w : world) (dir : string)
  (desc : gmap string pyval) (data_year data_month : Z)
  (before rest : list string) (summed : list spec_float) :
  monthly_sum_loop w dir desc data_year data_month (before ++ rest)%list summed
  = monthly_sum_loop w dir desc data_year data_month before summed ≫=
    monthly_sum_loop w dir desc data_year data_month rest.
Proof.
  revert summed. induction before as [|name before IH]; intros summed;
    [reflexivity|].
  cbn [app monthly_sum_loop].
  destruct (monthly_sum_step w dir desc data_year data_month summed name)
    as [summed'|e]; cbn; [apply IH|reflexivity].
Qed.

(** The loop never changes the length of the sum. *)
Lemma monthly_sum_loop_length (w : world) (dir : string)
  (desc : gmap string pyval) (data_year data_month : Z)
  (listing : list string) (summed summed' : list spec_float) :
  monthly_sum_loop w dir desc data_year data_month listing summed
    = Ok summed' ->
  length summed' = length summed.
Proof.
  apply (monthly_sum_loop_invariant
           (fun s => length s = length summed) w dir desc data_year data_month);
    [|reflexivity].
  intros s file s' Hs Hstep.
  apply monthly_sum_step_inversion in Hstep as [->|(d & _ & Hi)]; [done|].
  by rewrite (iadd_length _ _ _ Hi).
Qed.

(** C4 (amended): the reader does not fail on a short file, it returns the
    elements the file holds; the failure comes from the accumulation.  When
    a file of the month, wherever it stands in the listing, holds fewer than
    [x_count * y_count] whole four-byte elements, and not exactly one, and
    the loop has reached it (the sum was allocated and the files listed
    before it went through), the aggregator raises [ValueError]: the shapes
    do not match. *)
Theorem short_file_fails_in_accumulation (w : world) (dir : string)
  (desc : gmap string pyval) (data_year data_month : Z)
  (before rest : list string) (file content : string) (x y : Z)
  (le undef : pyval) (below_zero : bool) (zeros summed : list spec_float) :
  dirs w !! dir = Some (before ++ file :: rest)%list ->
  desc !! "xdef_count" = Some (PyInt x) ->
  desc !! "ydef_count" = Some (PyInt y) ->
  np_zeros (x * y) = Ok zeros ->
  monthly_sum_loop w dir desc data_year data_month before zeros = Ok summed ->
  int (slice_from_end file 8 4) = Ok data_year ->
  int (slice_from_end file 4 2) = Ok data_month ->
  files w !! sep_join dir file = Some content ->
  desc !! "little_endian" = Some le ->
  desc !! "undef" = Some undef ->
  lt_zero undef = Ok below_zero ->
  Z.of_nat (length (words_of_bytes native_little_endian content)) < x * y ->
  length (words_of_bytes native_little_endian content) <> 1%nat ->
  (exists data, read_daily w dir desc file = Ok data /\
     length data = length (words_of_bytes native_little_endian content)) /\
  _read_daily_cmorph_to_monthly_sum w dir desc data_year data_month =
  Raise ValueError.
Proof.
  intros Hd Hx Hy Hzeros Hloop Hfy Hfm Hf Hle Hu Hz Hshort Hone.
  pose proof (read_daily_readable w dir file content desc le undef below_zero
                Hf Hle Hu Hz) as Hr.
  set (data := if below_zero then zero_negative (corrected le content)
               else corrected le content) in *.
  assert (Hlen : length data =
                 length (words_of_bytes native_little_endian content)).
  { unfold data, corrected, zero_negative, byteswap.
    destruct below_zero, (truthy le); by rewrite ?length_map. }
  split; [by exists data|].
  assert (Hsum : length summed = Z.to_nat (x * y)).
  { rewrite (monthly_sum_loop_length _ _ _ _ _ _ _ _ Hloop).
    apply np_zeros_returns in Hzeros as (_ & _ & ->).
    apply length_replicate. }
  assert (Hadd : iadd summed data = Raise ValueError).
  { unfold iadd. rewrite length_map, Hlen, Hsum.
    destruct (Nat.eqb_spec
                (length (words_of_bytes native_little_endian content))
                (Z.to_nat (x * y))) as [Heq|_]; [lia|].
    clearbody data.
    destruct data as [|v [|v' data]]; cbn in *; [reflexivity|lia|reflexivity]. }
  unfold _read_daily_cmorph_to_monthly_sum, getitem, os_listdir.
  rewrite Hx, Hy, Hd. cbn -[np_zeros monthly_sum_loop]. rewrite Hzeros.
  cbn -[monthly_sum_loop].
  rewrite monthly_sum_loop_app, Hloop. cbn [mbind result_bind monthly_sum_loop].
  unfold monthly_sum_step.
  rewrite Hfy, Hfm. cbn. rewrite !Z.eqb_refl. cbn.
  rewrite Hr. cbn. by rewrite Hadd.
Qed.

(** A name whose characters at [[-8:-4]] or [[-4:-2]] are not an integer
    stops the loop, wherever it stands in the listing: either an earlier
    file has raised, or [int] raises on it. *)
Lemma unreadable_name_stops_the_loop (w : world) (dir : string)
  (desc : gmap string pyval) (data_year data_month : Z) (name : string)
  (listing : list string) (summed : list spec_float) :
  name ∈ listing ->
  is_ok (int (slice_from_end name 8 4)) = false \/
  is_ok (int (slice_from_end name 4 2)) = false ->
  is_ok (monthly_sum_loop w dir desc data_year data_month listing summed)
  = false.
Proof.
  intros Hin Hbad. revert summed.
  induction listing as [|file listing IH]; intros summed.
  - by apply not_elem_of_nil in Hin.
  - cbn [monthly_sum_loop].
    destruct (monthly_sum_step w dir desc data_year data_month summed file)
      as [summed'|e] eqn:E; cbn; [|reflexivity].
    apply elem_of_cons in Hin as [->|Hin]; [|by apply IH].
    exfalso. unfold monthly_sum_step in E.
    destruct (int (slice_from_end file 8 4)) as [fy|];
      [|discriminate E].
    destruct (int (slice_from_end file 4 2)) as [fm|];
      [|discriminate E].
    by destruct Hbad.
Qed.

(** C7 (the code departs from the claim): the aggregator calls [int] on the
    characters [[-8:-4]] and [[-4:-2]] of every name of the directory before
    it compares them.  A directory that lists a name on which [int] fails,
    such as the [data_descriptor.txt] that [ingest_cmorph_to_netcdf] keeps
    there, never gives an aggregate, whatever the descriptor and the target
    month, whether files match or not. *)
Theorem unreadable_name_stops_the_aggregator (w : world) (dir : string)
  (desc : gmap string pyval) (data_year data_month : Z)
  (listing : list string) (name : string) :
  dirs w !! dir = Some listing ->
  name ∈ listing ->
  is_ok (int (slice_from_end name 8 4)) = false \/
  is_ok (int (slice_from_end name 4 2)) = false ->
  is_ok (_read_daily_cmorph_to_monthly_sum w dir desc data_year data_month)
  = false.
Proof.
  intros Hd Hin Hbad.
  unfold _read_daily_cmorph_to_monthly_sum, getitem, os_listdir.
  destruct (desc !! "xdef_count") as [xc|]; [|reflexivity].
  destruct (desc !! "ydef_count") as [yc|]; [|reflexivity].
  cbn -[np_zeros monthly_sum_loop].
  destruct (array_length xc yc) as [n|]; [|reflexivity].
  cbn -[np_zeros monthly_sum_loop].
  destruct (np_zeros n) as [zeros|]; [|reflexivity].
  rewrite Hd. cbn -[monthly_sum_loop].
  by apply (unreadable_name_stops_the_loop _ _ _ _ _ name).
Qed.

End AggregatorProperties.

Lemma monthly_sum_selects_by_name_witness :
  _read_daily_cmorph_to_monthly_sum
    (work_dir [day1; day2]
       [(day1, le_file [f32_one; f32_one; f32_one; f32_one]);
        (day2, le_file [f32_undef; f32_one; f32_one; f32_one])])
    "work" grid_2x2 (decimal 0 "1998") (decimal 0 "02") =
  accumulate
    (work_dir [day1; day2]
       [(day1, le_file [f32_one; f32_one; f32_one; f32_one]);
        (day2, le_file [f32_undef; f32_one; f32_one; f32_one])])
    "work" grid_2x2 (List.filter (selected "1998" "02") [day1; day2])
    (replicate (Z.to_nat (2 * 2)) float_zero) /\
  (List.filter (selected "1998" "02") [day1; day2] = [] ->
   _read_daily_cmorph_to_monthly_sum
     (work_dir [day1; day2]
        [(day1, le_file [f32_one; f32_one; f32_one; f32_one]);
         (day2, le_file [f32_undef; f32_one; f32_one; f32_one])])
     "work" grid_2x2 (decimal 0 "1998") (decimal 0 "02") =
   Ok (replicate (Z.to_nat (2 * 2)) float_zero)).
Proof.
  apply (monthly_sum_selects_by_name
           (work_dir [day1; day2]
              [(day1, le_file [f32_one; f32_one; f32_one; f32_one]);
               (day2, le_file [f32_undef; f32_one; f32_one; f32_one])])
           "work" grid_2x2 [day1; day2] "1998" "02" 2 2);
    try reflexivity; vm_compute; congruence.
Defined.

(** At the input of C7: a work directory that holds the descriptor and no
    daily file has no file of January 1998; the aggregator raises
    [ValueError] on [int('ptor')] instead of returning four zeros. *)
Lemma unconventional_name_raises :
  List.filter (selected "1998" "01") ["data_descriptor.txt"] = [] /\
  int (slice_from_end "data_descriptor.txt" 8 4) = Raise ValueError /\
  _read_daily_cmorph_to_monthly_sum
    (work_dir ["data_descriptor.txt"]
       [("data_descriptor.txt", example_descriptor)])
    "work" grid_2x2 1998 1 = Raise ValueError.
Proof. repeat split; vm_compute; reflexivity. Qed.

Lemma unreadable_name_stops_the_aggregator_witness :
  is_ok (_read_daily_cmorph_to_monthly_sum
           (work_dir [day1; "data_descriptor.txt"; day2]
              [(day1, le_file [f32_one; f32_one; f32_one; f32_one]);
               ("data_descriptor.txt", example_descriptor);
               (day2, le_file [f32_undef; f32_one; f32_one; f32_one])])
           "work" grid_2x2 1998 1)
  = false.
Proof.
  apply (unreadable_name_stops_the_aggregator
           (work_dir [day1; "data_descriptor.txt"; day2]
              [(day1, le_file [f32_one; f32_one; f32_one; f32_one]);
               ("data_descriptor.txt", example_descriptor);
               (day2, le_file [f32_undef; f32_one; f32_one; f32_one])])
           "work" grid_2x2 1998 1 [day1; "data_descriptor.txt"; day2]
           "data_descriptor.txt").
  - reflexivity.
  - apply elem_of_cons. right. apply elem_of_cons. by left.
  - left. reflexivity.
Defined.

Lemma short_file_fails_in_accumulation_witness :
  (exists data,
     read_daily
       (work_dir [day1; day2]
          [(day1, le_file [f32_one; f32_one; f32_one; f32_one]);
           (day2, le_file [f32_one; f32_one])])
       "work" grid_2x2 day2 = Ok data /\
     length data =
     length (words_of_bytes native_little_endian (le_file [f32_one; f32_one])))
  /\
  _read_daily_cmorph_to_monthly_sum
    (work_dir [day1; day2]
       [(day1, le_file [f32_one; f32_one; f32_one; f32_one]);
        (day2, le_file [f32_one; f32_one])])
    "work" grid_2x2 1998 1 = Raise ValueError.
Proof.
  apply (short_file_fails_in_accumulation
           (work_dir [day1; day2]
              [(day1, le_file [f32_one; f32_one; f32_one; f32_one]);
               (day2, le_file [f32_one; f32_one])])
           "work" grid_2x2 1998 1 [day1] [] day2 (le_file [f32_one; f32_one])
           2 2 (PyBool true) (PyFloat (double (-999) 0)) true
           [float_zero; float_zero; float_zero; float_zero]
           [double 1 0; double 1 0; double 1 0; double 1 0]);
    try reflexivity; vm_compute; congruence.
Defined.

(** C4, the claim as stated fails: a file of four bytes holds one element
    where the 2 x 2 grid expects four; nothing is raised, and the element is
    added to every cell of the sum. *)
Lemma one_element_file_is_broadcast :
  read_daily (work_dir [day1] [(day1, le_file [f32_one])])
    "work" grid_2x2 day1 = Ok [f32_one] /\
  _read_daily_cmorph_to_monthly_sum
    (work_dir [day1] [(day1, le_file [f32_one])])
    "work" grid_2x2 1998 1 =
  Ok [double 1 0; double 1 0; double 1 0; double 1 0].
Proof. split; vm_compute; reflexivity. Qed.

(** ** The driver and the dataset assembler *)

Lemma io_bind_ok {A B} (m : io A) (f : A -> io B) (w w1 : world) (a : A) :
  m w = (w1, Ok a) -> (m ≫= f) w = f a w1.
Proof. intros H. cbv [mbind io_bind]. by rewrite H. Qed.

Lemma io_bind_raise {A B} (m : io A) (f : A -> io B) (w w1 : world) (e : exn) :
  m w = (w1, Raise e) -> (m ≫= f) w = (w1, Raise e).
Proof. intros H. cbv [mbind io_bind]. by rewrite H. Qed.

Section DriverProperties.
Context `{P : Platform}.

Lemma nc_accepted (c : nc_call) (w w' : world) :
  nc c w = (w', Ok ()) ->
  w' = World (dirs w) (files w) (netcdf w ++ [c]).
Proof.
  unfold nc. destruct (netcdf_accepts (netcdf w) c); congruence.
Qed.

Lemma np_reshape_same (data data' : list spec_float) (y x : pyval) :
  np_reshape data y x = Ok data' -> data' = data.
Proof.
  unfold np_reshape. destruct (as_index y), (as_index x); try discriminate.
  destruct (_ && _); congruence.
Qed.

(** C5: whenever a month is written, the slice of [prcp] that is assigned
    is the one at index [(year - start_year) * 12 + (month - 1)], where
    [start_year] is the year of the start date of the descriptor: the
    retrieval (if any) leads to a world [w1], the assignment is the call
    recorded there, and what follows is the removal of the retrieved
    files. *)
Theorem month_written_at_time_index (cmorph_dir obs_type : string)
  (download_files remove_files : bool) (data_desc : gmap string pyval)
  (data_year data_month : Z) (w w' : world) :
  ingest_month cmorph_dir obs_type download_files remove_files data_desc
    data_year data_month w = (w', Ok ()) ->
  exists (start : datetime) (data : list spec_float) (w1 : world)
         (downloaded : list string),
    data_desc !! "start_date" = Some (PyDatetime start) /\
    (if download_files
     then _download_daily_files cmorph_dir data_year data_month obs_type w
     else (w, Ok [])) = (w1, Ok downloaded) /\
    _read_daily_cmorph_to_monthly_sum w1 cmorph_dir data_desc
      data_year data_month = Ok data /\
    when (download_files && remove_files) (for_each downloaded os_remove)
      (World (dirs w1) (files w1)
         (netcdf w1 ++
          [NcAssign "prcp"
             (Some ((data_year - year start) * 12 + (data_month - 1)))
             data]))
    = (w', Ok ()).
Proof.
  unfold ingest_month. cbv [mbind io_bind inspect lift].
  intros H.
  destruct (if download_files
            then _download_daily_files cmorph_dir data_year data_month obs_type
            else λ w0 : world, (w0, Ok [])) as [w1 [downloaded|e]] eqn:Hd;
    [|discriminate H].
  destruct (_read_daily_cmorph_to_monthly_sum w1 cmorph_dir data_desc
              data_year data_month) as [data|e] eqn:Hsum; [|discriminate H].
  destruct (getitem data_desc "ydef_count") as [yc|e]; [|discriminate H].
  destruct (getitem data_desc "xdef_count") as [xc|e]; [|discriminate H].
  destruct (np_reshape data yc xc) as [data'|e] eqn:Hre; [|discriminate H].
  apply np_reshape_same in Hre as ->.
  unfold getitem in H.
  destruct (data_desc !! "start_date") as [sd|] eqn:Hsd; [|discriminate H].
  cbn [of_option] in H.
  destruct sd as [| | | |start]; try discriminate H. cbn [attr_year] in H.
  destruct (nc _ w1) as [w2 [[]|e]] eqn:Hnc; [|discriminate H].
  apply nc_accepted in Hnc as ->.
  exists start, data, w1, downloaded.
  rewrite time_index_formula in H.
  split; [reflexivity|]. split; [by destruct download_files|].
  split; [exact Hsum|exact H].
Qed.

(** *** The run of [ingest_cmorph_to_netcdf] *)

Lemma nc_result (c : nc_call) (w : world) :
  nc c w =
  if netcdf_accepts (netcdf w) c
  then (World (dirs w) (files w) (netcdf w ++ [c]), Ok ())
  else (w, Raise NetCDFError).
Proof. reflexivity. Qed.

(** The call of [_compute_days] in the driver names two keywords that are
    not parameters: it raises [TypeError], whatever the descriptor says. *)
Lemma driver_call_raises (start_year count start_month units_since_year : Z) :
  call_compute_days [start_year; count]
    [("initial_month", start_month); ("units_start_year", units_since_year)]
  = Raise TypeError.
Proof.
  reflexivity.
Qed.

Lemma bind_raises {A B} (m : io A) (f : A -> io B) :
  (forall a, raises (f a)) -> raises (m ≫= f).
Proof.
  intros Hf w. cbv [mbind io_bind].
  destruct (m w) as [w1 [a|e]]; [apply Hf|by eexists _, _].
Qed.

Lemma bind_raises_first {A B} (m : io A) (f : A -> io B) :
  raises m -> raises (m ≫= f).
Proof.
  intros Hm w. cbv [mbind io_bind]. destruct (Hm w) as (w1 & e & ->).
  by eexists _, _.
Qed.

Lemma with_dataset_raises (path : string) (body : io unit) :
  raises body -> raises (with_dataset path body).
Proof.
  intros Hb w. unfold with_dataset.
  destruct (nc (NcDataset path) w) as [w1 [[]|e]]; [|by eexists _, _].
  destruct (Hb w1) as (w2 & e & ->).
  destruct (nc NcClose w2) as [w3 closed]. by eexists _, _.
Qed.

Lemma lift_raise_raises {A} (e : exn) : raises (lift (A := A) (Raise e)).
Proof. intros w. by eexists _, _. Qed.

(** No run of [ingest_cmorph_to_netcdf] reaches the end of the function:
    whatever precedes it, the call of [_compute_days] raises. *)
Lemma ingest_always_raises (cmorph_dir descriptor_file netcdf_file : string)
  (data_descriptor_file_name obs_type : string)
  (download_files remove_files : bool) :
  raises (ingest_cmorph_to_netcdf cmorph_dir descriptor_file netcdf_file
            data_descriptor_file_name obs_type download_files remove_files).
Proof.
  unfold ingest_cmorph_to_netcdf.
  apply bind_raises; intros _.
  apply bind_raises; intros data_desc.
  apply bind_raises; intros _.
  apply with_dataset_raises.
  repeat first
    [ apply bind_raises_first; rewrite driver_call_raises;
      apply lift_raise_raises
    | apply bind_raises; intros ? ].
Qed.

(** *** What the run depends on *)

Lemma reads_only_bind {A B} (path : string) (m : io A) (f : A -> io B) :
  reads_only path m -> (forall a, reads_only path (f a)) ->
  reads_only path (m ≫= f).
Proof.
  intros Hm Hf w1 w2 Hw. cbv [mbind io_bind].
  destruct (Hm w1 w2 Hw) as [Hr Hs].
  destruct (m w1) as [w1' r1], (m w2) as [w2' r2]. cbn in Hr, Hs. subst r2.
  destruct r1 as [a|e]; [by apply Hf|done].
Qed.

Lemma reads_only_lift {A} (path : string) (r : result A) :
  reads_only path (lift r).
Proof. by intros w1 w2 Hw. Qed.

Lemma reads_only_nc (path : string) (c : nc_call) : reads_only path (nc c).
Proof.
  intros w1 w2 [Hf Hn]. unfold nc. rewrite Hn.
  destruct (netcdf_accepts (netcdf w2) c); cbn; [|done].
  split; [done|]. by split.
Qed.

Lemma reads_only_with_dataset (path netcdf_file : string) (body : io unit) :
  reads_only path body -> reads_only path (with_dataset netcdf_file body).
Proof.
  intros Hb w1 w2 Hw. unfold with_dataset.
  destruct (reads_only_nc path (NcDataset netcdf_file) w1 w2 Hw) as [Hr Hs].
  destruct (nc (NcDataset netcdf_file) w1) as [w1' r1],
           (nc (NcDataset netcdf_file) w2) as [w2' r2].
  cbn in Hr, Hs. subst r2. destruct r1 as [[]|e]; [|done].
  destruct (Hb w1' w2' Hs) as [Hr' Hs'].
  destruct (body w1') as [w1'' r1], (body w2') as [w2'' r2].
  cbn in Hr', Hs'. subst r2.
  destruct (reads_only_nc path NcClose w1'' w2'' Hs') as [Hr'' Hs''].
  destruct (nc NcClose w1'') as [w1c c1], (nc NcClose w2'') as [w2c c2].
  cbn in Hr'', Hs''. subst c2. done.
Qed.

Lemma reads_only_read_description (path : string) :
  reads_only path (inspect (fun w => _read_description w path)).
Proof.
  intros w1 w2 [Hf Hn]. unfold inspect, _read_description, read_file. cbn.
  by rewrite Hf.
Qed.

(** Without retrieval, the run of the driver reads one file: the one named
    [data_descriptor.txt] in the work directory. *)
Lemma ingest_reads_only_the_descriptor
  (cmorph_dir descriptor_file netcdf_file : string)
  (data_descriptor_file_name obs_type : string) (remove_files : bool) :
  reads_only (sep_join cmorph_dir "data_descriptor.txt")
    (ingest_cmorph_to_netcdf cmorph_dir descriptor_file netcdf_file
       data_descriptor_file_name obs_type false remove_files).
Proof.
  unfold ingest_cmorph_to_netcdf. cbn [andb when].
  apply reads_only_bind; [by intros w1 w2 Hw|intros _].
  apply reads_only_bind; [apply reads_only_read_description|intros data_desc].
  apply reads_only_bind; [by intros w1 w2 Hw|intros _].
  apply reads_only_with_dataset.
  repeat first
    [ apply reads_only_nc
    | apply reads_only_lift
    | apply reads_only_bind; [|intros ?] ].
Qed.

(** A run whose descriptor, once in place, has the two counts, the title
    and the start date: the dataset is created from these values, and the
    call of [_compute_days] ends the run with [TypeError]. *)
Lemma ingest_run_with_descriptor
  (cmorph_dir descriptor_file netcdf_file : string)
  (data_descriptor_file_name obs_type : string)
  (download_files remove_files : bool)
  (w w1 w2 : world) (xc yc title : pyval) (start : datetime) :
  when download_files
    (_download_data_descriptor (sep_join cmorph_dir "data_descriptor.txt")) w
  = (w1, Ok ()) ->
  descriptor_field w1 (sep_join cmorph_dir "data_descriptor.txt") "xdef_count"
    = Ok xc ->
  descriptor_field w1 (sep_join cmorph_dir "data_descriptor.txt") "ydef_count"
    = Ok yc ->
  descriptor_field w1 (sep_join cmorph_dir "data_descriptor.txt") "title"
    = Ok title ->
  descriptor_field w1 (sep_join cmorph_dir "data_descriptor.txt") "start_date"
    = Ok (PyDatetime start) ->
  when (download_files && remove_files)
    (os_remove (sep_join cmorph_dir "data_descriptor.txt")) w1
  = (w2, Ok ()) ->
  (forall log c, netcdf_accepts log c = true) ->
  ingest_cmorph_to_netcdf cmorph_dir descriptor_file netcdf_file
    data_descriptor_file_name obs_type download_files remove_files w =
  (World (dirs w2) (files w2)
     (netcdf w2 ++ dataset_skeleton netcdf_file xc yc title),
   Raise TypeError).
Proof.
  unfold descriptor_field. intros Hdl Hx Hy Ht Hs Hrm Hacc.
  destruct (_read_description w1 (sep_join cmorph_dir "data_descriptor.txt"))
    as [desc|e] eqn:Hd; [|discriminate Hx].
  cbn in Hx, Hy, Ht, Hs.
  unfold ingest_cmorph_to_netcdf.
  erewrite io_bind_ok; [|exact Hdl].
  erewrite io_bind_ok; [|unfold inspect; rewrite Hd; reflexivity].
  erewrite io_bind_ok; [|exact Hrm].
  unfold with_dataset. rewrite nc_result, Hacc. cbn [netcdf dirs files].
  match goal with
  | |- (let '(w3, r) := ?body ?w0 in _) = _ =>
      eassert (Hb : body w0 = (_, Raise TypeError))
  end.
  { repeat (erewrite io_bind_ok;
            [|first [ rewrite nc_result, Hacc; cbn [netcdf dirs files];
                      reflexivity
                    | unfold lift; rewrite ?Hx, ?Hy, ?Ht, ?Hs; reflexivity ]]).
    erewrite io_bind_raise; [reflexivity|].
    unfold lift. by rewrite driver_call_raises. }
  rewrite Hb. rewrite nc_result, Hacc. cbn [netcdf dirs files].
  unfold dataset_skeleton. by rewrite <- !app_assoc.
Qed.

(** A run whose descriptor, once in place, cannot be read or parsed ends
    with the exception of the parser. *)
Lemma ingest_run_without_descriptor
  (cmorph_dir descriptor_file netcdf_file : string)
  (data_descriptor_file_name obs_type : string)
  (download_files remove_files : bool) (w w1 : world) (e : exn) :
  when download_files
    (_download_data_descriptor (sep_join cmorph_dir "data_descriptor.txt")) w
  = (w1, Ok ()) ->
  _read_description w1 (sep_join cmorph_dir "data_descriptor.txt") = Raise e ->
  ingest_cmorph_to_netcdf cmorph_dir descriptor_file netcdf_file
    data_descriptor_file_name obs_type download_files remove_files w =
  (w1, Raise e).
Proof.
  intros Hdl Hd. unfold ingest_cmorph_to_netcdf.
  erewrite io_bind_ok; [|exact Hdl].
  erewrite io_bind_raise; [reflexivity|].
  unfold inspect. by rewrite Hd.
Qed.

(** C10: the value passed for [descriptor_file] has no effect, the two runs
    are the same, and the descriptor is the file [data_descriptor.txt] of
    the work directory.  Once that file is in place (fetched when
    [download_files] is set), a failure to read or parse it is the outcome
    of the run, and when it gives the counts, the title and the start date,
    these are the values the dataset is created with.  Without retrieval its
    absence stops the run with [OSError], and such a run reads no other
    file. *)
Theorem descriptor_file_argument_is_ignored
  (cmorph_dir descriptor_file descriptor_file' netcdf_file : string)
  (data_descriptor_file_name obs_type : string)
  (download_files remove_files : bool) (w : world) :
  ingest_cmorph_to_netcdf cmorph_dir descriptor_file netcdf_file
    data_descriptor_file_name obs_type download_files remove_files w =
  ingest_cmorph_to_netcdf cmorph_dir descriptor_file' netcdf_file
    data_descriptor_file_name obs_type download_files remove_files w /\
  (forall (w1 : world) (e : exn),
     when download_files
       (_download_data_descriptor (sep_join cmorph_dir "data_descriptor.txt"))
       w = (w1, Ok ()) ->
     _read_description w1 (sep_join cmorph_dir "data_descriptor.txt")
       = Raise e ->
     ingest_cmorph_to_netcdf cmorph_dir descriptor_file netcdf_file
       data_descriptor_file_name obs_type download_files remove_files w =
     (w1, Raise e)) /\
  (forall (w1 w2 : world) (xc yc title : pyval) (start : datetime),
     when download_files
       (_download_data_descriptor (sep_join cmorph_dir "data_descriptor.txt"))
       w = (w1, Ok ()) ->
     descriptor_field w1 (sep_join cmorph_dir "data_descriptor.txt")
       "xdef_count" = Ok xc ->
     descriptor_field w1 (sep_join cmorph_dir "data_descriptor.txt")
       "ydef_count" = Ok yc ->
     descriptor_field w1 (sep_join cmorph_dir "data_descriptor.txt")
       "title" = Ok title ->
     descriptor_field w1 (sep_join cmorph_dir "data_descriptor.txt")
       "start_date" = Ok (PyDatetime start) ->
     when (download_files && remove_files)
       (os_remove (sep_join cmorph_dir "data_descriptor.txt")) w1
       = (w2, Ok ()) ->
     (forall log c, netcdf_accepts log c = true) ->
     ingest_cmorph_to_netcdf cmorph_dir descriptor_file netcdf_file
       data_descriptor_file_name obs_type download_files remove_files w =
     (World (dirs w2) (files w2)
        (netcdf w2 ++ dataset_skeleton netcdf_file xc yc title),
      Raise TypeError)) /\
  ingest_cmorph_to_netcdf cmorph_dir descriptor_file netcdf_file
    data_descriptor_file_name obs_type false remove_files
    (World (dirs w)
       (delete (sep_join cmorph_dir "data_descriptor.txt") (files w))
       (netcdf w)) =
  (World (dirs w)
     (delete (sep_join cmorph_dir "data_descriptor.txt") (files w))
     (netcdf w),
   Raise OSError) /\
  reads_only (sep_join cmorph_dir "data_descriptor.txt")
    (ingest_cmorph_to_netcdf cmorph_dir descriptor_file netcdf_file
       data_descriptor_file_name obs_type false remove_files).
Proof.
  split; [reflexivity|].
  split; [intros w1 e; apply ingest_run_without_descriptor|].
  split; [intros w1 w2 xc yc title start; apply ingest_run_with_descriptor|].
  split; [|apply ingest_reads_only_the_descriptor].
  apply ingest_run_without_descriptor; [reflexivity|].
  unfold _read_description, read_file. cbn [files].
  by rewrite lookup_delete_eq.
Qed.

(** C8 (amended): a call that binds the parameters of [_compute_days] with
    an epoch year after the first data year fails with [ValueError] (the
    range error) at the first statement of the function, whatever the final
    year, whether the epoch is passed by position or as [year_since].  The
    error does not come before the I/O of a run.  The call of the driver
    names the epoch [units_start_year], which is no parameter, and fails
    with [TypeError]; and it is made after the descriptor has been read and
    the dataset created: a run without retrieval on a descriptor whose
    record starts in [year_initial] leaves the created dataset behind and
    ends with [TypeError]. *)
Theorem compute_days_rejects_late_epoch
  (year_initial year_final year_since : Z) :
  year_initial < year_since ->
  _compute_days year_initial year_final year_since = Raise ValueError /\
  call_compute_days [year_initial; year_final; year_since] []
    = Raise ValueError /\
  call_compute_days [year_initial; year_final] [("year_since", year_since)]
    = Raise ValueError /\
  (forall start_month : Z,
     call_compute_days [year_initial; year_final]
       [("initial_month", start_month); ("units_start_year", year_since)]
     = Raise TypeError) /\
  (forall (cmorph_dir descriptor_file netcdf_file : string)
          (data_descriptor_file_name obs_type : string) (remove_files : bool)
          (w : world) (xc yc title : pyval) (start : datetime),
     descriptor_field w (sep_join cmorph_dir "data_descriptor.txt")
       "xdef_count" = Ok xc ->
     descriptor_field w (sep_join cmorph_dir "data_descriptor.txt")
       "ydef_count" = Ok yc ->
     descriptor_field w (sep_join cmorph_dir "data_descriptor.txt")
       "title" = Ok title ->
     descriptor_field w (sep_join cmorph_dir "data_descriptor.txt")
       "start_date" = Ok (PyDatetime start) ->
     year start = year_initial ->
     (forall log c, netcdf_accepts log c = true) ->
     ingest_cmorph_to_netcdf cmorph_dir descriptor_file netcdf_file
       data_descriptor_file_name obs_type false remove_files w =
     (World (dirs w) (files w)
        (netcdf w ++ dataset_skeleton netcdf_file xc yc title),
      Raise TypeError)).
Proof.
  intros H.
  pose proof (compute_days_late_epoch year_initial year_final year_since H)
    as Hv.
  split; [exact Hv|].
  split; [exact Hv|].
  split; [exact Hv|].
  split; [intros start_month; apply driver_call_raises|].
  intros cmorph_dir descriptor_file netcdf_file data_descriptor_file_name
    obs_type remove_files w xc yc title start Hx Hy Ht Hs _ Hacc.
  by apply (ingest_run_with_descriptor _ _ _ _ _ false remove_files w w w
              xc yc title start).
Qed.

End DriverProperties.

(** At the instance of C10 the file named by the argument has three
    columns, the one of the work directory two: the dataset gets two. *)
Lemma descriptor_file_argument_is_ignored_witness :
  descriptor_field two_descriptors "elsewhere.ctl" "xdef_count"
    = Ok (PyInt 3) /\
  ingest_cmorph_to_netcdf "work" "elsewhere.ctl" "out.nc"
    "CMORPH_V1.0_RAW_0.25deg-DLY_00Z.ctl" "raw" false false two_descriptors =
  (World (dirs two_descriptors) (files two_descriptors)
     (netcdf two_descriptors ++
      dataset_skeleton "out.nc" (PyInt 2) (PyInt 2) (PyStr "CMORPH")),
   Raise TypeError).
Proof.
  split; [reflexivity|].
  apply (proj1 (proj2 (proj2
           (descriptor_file_argument_is_ignored "work" "elsewhere.ctl"
              "elsewhere.ctl" "out.nc" "CMORPH_V1.0_RAW_0.25deg-DLY_00Z.ctl"
              "raw" false false two_descriptors)))
           two_descriptors two_descriptors (PyInt 2) (PyInt 2)
           (PyStr "CMORPH") (Datetime 1998 1 1));
    reflexivity.
Defined.

Lemma compute_days_rejects_late_epoch_witness :
  _compute_days 1998 2017 2000 = Raise ValueError /\
  call_compute_days [1998; 2017; 2000] [] = Raise ValueError /\
  call_compute_days [1998; 2017] [("year_since", 2000)] = Raise ValueError /\
  (forall start_month : Z,
     call_compute_days [1998; 2017]
       [("initial_month", start_month); ("units_start_year", 2000)]
     = Raise TypeError) /\
  ingest_cmorph_to_netcdf "work" "elsewhere.ctl" "out.nc"
    "CMORPH_V1.0_RAW_0.25deg-DLY_00Z.ctl" "raw" false false two_descriptors =
  (World (dirs two_descriptors) (files two_descriptors)
     (netcdf two_descriptors ++
      dataset_skeleton "out.nc" (PyInt 2) (PyInt 2) (PyStr "CMORPH")),
   Raise TypeError).
Proof.
  destruct (compute_days_rejects_late_epoch 1998 2017 2000 ltac:(lia))
    as (H1 & H2 & H3 & H4 & H5).
  split; [exact H1|]. split; [exact H2|]. split; [exact H3|].
  split; [exact H4|].
  apply (H5 "work" "elsewhere.ctl" "out.nc"
            "CMORPH_V1.0_RAW_0.25deg-DLY_00Z.ctl" "raw" false two_descriptors
            (PyInt 2) (PyInt 2) (PyStr "CMORPH") (Datetime 1998 1 1));
    reflexivity.
Defined.

(** C8, the claim as stated fails: for a record that starts in 1700, before
    the epoch 1800 of the time axis, the call the driver makes raises
    [TypeError], not the range error, and by then the descriptor has been
    read and the dataset created. *)
Lemma late_epoch_in_the_driver :
  1700 < 1800 /\
  descriptor_field (P := posix_offline_1700)
    (descriptor_only "work/data_descriptor.txt"
       (short_descriptor "2" "01jan1700"))
    "work/data_descriptor.txt" "start_date"
  = Ok (PyDatetime (Datetime 1700 1 1)) /\
  call_compute_days [1700; 20 * 366]
    [("initial_month", 1); ("units_start_year", 1800)] = Raise TypeError /\
  ingest_cmorph_to_netcdf (P := posix_offline_1700) "work" "" "out.nc"
    "CMORPH_V1.0_RAW_0.25deg-DLY_00Z.ctl" "raw" false false
    (descriptor_only "work/data_descriptor.txt"
       (short_descriptor "2" "01jan1700")) =
  (World ∅ {[ "work/data_descriptor.txt" := short_descriptor "2" "01jan1700" ]}
     (dataset_skeleton "out.nc" (PyInt 2) (PyInt 2) (PyStr "CMORPH")),
   Raise TypeError).
Proof.
  split; [lia|]. split; [reflexivity|]. split; [reflexivity|].
  rewrite (ingest_run_with_descriptor (P := posix_offline_1700)
             "work" "" "out.nc" "CMORPH_V1.0_RAW_0.25deg-DLY_00Z.ctl" "raw"
             false false
             (descriptor_only "work/data_descriptor.txt"
                (short_descriptor "2" "01jan1700"))
             (descriptor_only "work/data_descriptor.txt"
                (short_descriptor "2" "01jan1700"))
             (descriptor_only "work/data_descriptor.txt"
                (short_descriptor "2" "01jan1700"))
             (PyInt 2) (PyInt 2) (PyStr "CMORPH") (Datetime 1700 1 1));
    reflexivity.
Qed.

Lemma month_written_at_time_index_witness :
  exists (start : datetime) (data : list spec_float) (w1 : world)
         (downloaded : list string),
    grid_2x2_1998 !! "start_date" = Some (PyDatetime start) /\
    (if false
     then _download_daily_files "work" 1999 3 "raw" (work_dir [day1] [])
     else (work_dir [day1] [], Ok [])) = (w1, Ok downloaded) /\
    _read_daily_cmorph_to_monthly_sum w1 "work" grid_2x2_1998 1999 3
      = Ok data /\
    when (false && false) (for_each downloaded os_remove)
      (World (dirs w1) (files w1)
         (netcdf w1 ++
          [NcAssign "prcp" (Some ((1999 - year start) * 12 + (3 - 1))) data]))
    = (World {[ "work" := [day1] ]} ∅
         [NcAssign "prcp" (Some 14)
            [float_zero; float_zero; float_zero; float_zero]],
       Ok ()).
Proof.
  apply (month_written_at_time_index "work" "raw" false false grid_2x2_1998
           1999 3 (work_dir [day1] [])).
  vm_compute. reflexivity.
Defined.

(** * Further properties of the code *)

(** ** The time index and the order of the months *)

(** X1: within the months 1..12, two different (year, month) pairs never
    share a time index: no month of the period overwrites another. *)
Theorem time_index_injective (y1 m1 y2 m2 start_year : Z) :
  1 <= m1 <= 12 -> 1 <= m2 <= 12 ->
  time_index y1 start_year m1 = time_index y2 start_year m2 ->
  y1 = y2 /\ m1 = m2.
Proof. unfold time_index. lia. Qed.

Lemma time_index_injective_witness : 1999 = 1999 /\ 3 = 3.
Proof.
  apply (time_index_injective 1999 3 1999 3 1998); [lia|lia|reflexivity].
Defined.

Lemma loop_months_by_position :
  loop_months _get_years =
  (fun i : nat => (1998 + Z.of_nat i / 12, 1 + Z.of_nat i mod 12))
    <$> seq 0 240.
Proof. vm_compute. reflexivity. Qed.

(** X2: in the order in which the driver visits them (the years 1998..2017,
    the months 1..12 of each), the months get the consecutive indices
    [(1998 - start_year) * 12], the next, and so on for 240 of them: the
    slices are written in increasing order, without a gap. *)
Theorem driver_months_are_consecutive (start_year : Z) :
  map (fun ym => time_index ym.1 start_year ym.2) (loop_months _get_years) =
  seqZ ((1998 - start_year) * 12) 240.
Proof.
  rewrite loop_months_by_position. unfold seqZ.
  change (Z.to_nat 240) with 240%nat.
  rewrite <- list_fmap_compose.
  apply list_fmap_ext. intros _ i _. cbn. unfold time_index.
  pose proof (Z.div_mod (Z.of_nat i) 12 ltac:(lia)).
  lia.
Qed.

(** ** The descriptor parser, further *)

Section ParserInvariants.
Context `{P : Platform}.

Lemma line_keeps_typing (d d' : gmap string pyval) (line : string) :
  read_description_line d line = Ok d' ->
  typed_descriptor d -> typed_descriptor d'.
Proof.
  unfold read_description_line, typed_descriptor. intros H Hd.
  line_cases H; injection H as <-;
    repeat (apply map_Forall_insert_2; [reflexivity|]); exact Hd.
Qed.

Lemma lines_keep_typing (d d' : gmap string pyval) (lines : list string) :
  read_description_lines d lines = Ok d' ->
  typed_descriptor d -> typed_descriptor d'.
Proof.
  revert d. induction lines as [|line lines IH]; intros d H Hd.
  - cbn in H. by injection H as <-.
  - cbn in H.
    destruct (read_description_line d line) as [d1|e] eqn:E; [|discriminate].
    cbn in H. apply (IH d1 H). by apply (line_keeps_typing d d1 line).
Qed.

Lemma parsed_descriptor_typing (w : world) (path : string)
  (d : gmap string pyval) :
  _read_description w path = Ok d -> typed_descriptor d.
Proof.
  unfold _read_description. intros H.
  destruct (read_file w path) as [text|e]; [|discriminate]. cbn in H.
  apply (lines_keep_typing ∅ d _ H). apply map_Forall_empty.
Qed.

(** X3: whatever the descriptor says, the dictionary the parser returns
    holds nothing but the eleven keys of the parser, each with a value of
    its own type: the counts are integers, the starts, increments and the
    sentinel are floats, the start date a datetime, the byte order a bool,
    title and description strings. *)
Theorem parsed_descriptor_is_typed (w : world) (path : string)
  (d : gmap string pyval) :
  _read_description w path = Ok d ->
  typed_descriptor d /\
  forall key, is_Some (d !! key) -> key ∈ descriptor_keys.
Proof.
  intros H. pose proof (parsed_descriptor_typing w path d H) as Ht.
  split; [exact Ht|].
  intros key [v Hv]. specialize (Ht key v Hv). unfold descriptor_keys.
  destruct v; cbn in Ht;
    try (apply bool_decide_eq_true in Ht; set_solver);
    apply String.eqb_eq in Ht; subst; set_solver.
Qed.

(** X4: the byte order is taken from the third token of an OPTIONS line and
    from nowhere else.  With fewer than three tokens the line raises
    [IndexError]; otherwise the descriptor is little-endian unless that
    token is [big_endian], whatever the other tokens are. *)
Theorem options_reads_third_token (d : gmap string pyval) (line : string) :
  leading_token line = Some "OPTIONS" ->
  read_description_line d line =
  match split line !! 2%nat with
  | Some flag =>
      Ok (<["little_endian" := PyBool (negb (String.eqb flag "big_endian"))]> d)
  | None => Raise IndexError
  end.
Proof.
  unfold read_description_line, leading_token. rewrite item_head.
  intros ->. cbn. unfold item.
  replace (nth_error (split line) 2) with (split line !! 2%nat); cycle 1.
  { generalize (split line). intros l. by destruct l as [|? [|? [|? ?]]]. }
  destruct (split line !! 2%nat) as [flag|]; [|reflexivity]. cbn.
  by destruct (String.eqb flag "big_endian").
Qed.

(** X5: a line whose leading token is none of UNDEF, XDEF, YDEF, TDEF,
    OPTIONS, cmorph, TITLE can be taken out of a descriptor without any
    change to what the parser returns or raises. *)
Theorem unrecognized_line_makes_no_difference (d : gmap string pyval)
  (before after : list string) (line token : string) :
  leading_token line = Some token -> token ∉ recognized ->
  read_description_lines d (before ++ line :: after)%list =
  read_description_lines d (before ++ after)%list.
Proof.
  intros H Hw. rewrite !read_description_lines_app.
  destruct (read_description_lines d before) as [d1|e]; cbn; [|reflexivity].
  by rewrite (unrecognized_line_ignored d1 line token H Hw).
Qed.

(** X6: a line without any token (empty, or blanks only) stops the parser:
    when the lines before it are accepted, the descriptor raises
    [IndexError], whatever follows. *)
Theorem blank_line_stops_the_parser (d : gmap string pyval)
  (before after : list string) (line : string) :
  split line = [] -> lines_accepted before = true ->
  read_description_lines d (before ++ line :: after)%list = Raise IndexError.
Proof.
  intros Hb Ha. rewrite read_description_lines_app.
  destruct (lines_accepted_returns d before Ha) as [d1 ->]. cbn.
  by rewrite (blank_line_raises d1 line Hb).
Qed.

End ParserInvariants.

Lemma parsed_descriptor_is_typed_witness :
  typed_descriptor (<["title" := PyStr "CMORPH"]> ∅) /\
  forall key,
    is_Some ((<["title" := PyStr "CMORPH"]> ∅ : gmap string pyval) !! key) ->
    key ∈ descriptor_keys.
Proof.
  apply (parsed_descriptor_is_typed
           (descriptor_only "d.ctl" ("TITLE CMORPH" ++ nl)) "d.ctl").
  vm_compute. reflexivity.
Defined.

Lemma options_reads_third_token_witness :
  read_description_line ∅ "OPTIONS little_endian" = Raise IndexError /\
  read_description_line ∅ "OPTIONS big_endian template" =
    Ok (<["little_endian" := PyBool true]> ∅).
Proof.
  split.
  - apply (options_reads_third_token ∅ "OPTIONS little_endian"). reflexivity.
  - apply (options_reads_third_token ∅ "OPTIONS big_endian template").
    reflexivity.
Defined.

Lemma unrecognized_line_makes_no_difference_witness :
  read_description_lines ∅
    (["TITLE CMORPH"] ++ "ZDEF   01 LEVELS 1" :: ["UNDEF  -999.0"])%list =
  read_description_lines ∅ (["TITLE CMORPH"] ++ ["UNDEF  -999.0"])%list.
Proof.
  apply (unrecognized_line_makes_no_difference ∅ ["TITLE CMORPH"]
           ["UNDEF  -999.0"] "ZDEF   01 LEVELS 1" "ZDEF").
  - reflexivity.
  - unfold recognized. set_solver.
Defined.

Lemma blank_line_stops_the_parser_witness :
  read_description_lines ∅
    (["TITLE CMORPH"] ++ "   " :: ["UNDEF  -999.0"])%list = Raise IndexError.
Proof.
  apply (blank_line_stops_the_parser ∅ ["TITLE CMORPH"] ["UNDEF  -999.0"]
           "   "); reflexivity.
Defined.

(** ** The daily grid reader, further *)

Lemma lor_shiftl_low (a y k : Z) :
  0 <= k -> 0 <= y < 2 ^ k -> Z.lor (Z.shiftl a k) y = a * 2 ^ k + y.
Proof.
  intros Hk Hy.
  assert (Hl : Z.land (Z.shiftl a k) y = 0).
  { apply Z.bits_inj'. intros n Hn. rewrite Z.land_spec, Z.bits_0.
    destruct (Z.lt_ge_cases n k) as [Hlt|Hge].
    - by rewrite Z.shiftl_spec_low.
    - rewrite <- (Z.mod_small y (2 ^ k)) by lia.
      rewrite Z.mod_pow2_bits_high by lia. apply andb_false_r. }
  pose proof (Z.add_lor_land (Z.shiftl a k) y) as H.
  rewrite Hl in H. rewrite <- (Z.shiftl_mul_pow2 a k) by lia. lia.
Qed.

Lemma byteswap32_bytes (a b c d : Z) :
  0 <= a < 256 -> 0 <= b < 256 -> 0 <= c < 256 -> 0 <= d < 256 ->
  byteswap32 (a + 256 * b + 65536 * c + 16777216 * d) =
  d + 256 * c + 65536 * b + 16777216 * a.
Proof.
  intros Ha Hb Hc Hd. unfold byteswap32.
  set (w := a + 256 * b + 65536 * c + 16777216 * d).
  change 255 with (Z.ones 8).
  rewrite !Z.land_ones, !Z.shiftr_div_pow2 by lia.
  assert (E0 : w mod 2 ^ 8 = a) by (unfold w; Z.div_mod_to_equations; lia).
  assert (E1 : (w / 2 ^ 8) mod 2 ^ 8 = b)
    by (unfold w; Z.div_mod_to_equations; lia).
  assert (E2 : (w / 2 ^ 16) mod 2 ^ 8 = c)
    by (unfold w; Z.div_mod_to_equations; lia).
  assert (E3 : (w / 2 ^ 24) mod 2 ^ 8 = d)
    by (unfold w; Z.div_mod_to_equations; lia).
  rewrite E0, E1, E2, E3.
  rewrite (lor_shiftl_low c d 8) by lia.
  rewrite (lor_shiftl_low b _ 16) by lia.
  rewrite (lor_shiftl_low a _ 24) by lia.
  lia.
Qed.

Lemma code_range (c : ascii) : 0 <= Z.of_N (code c) < 256.
Proof. unfold code. pose proof (N_ascii_bounded c). lia. Qed.

Lemma byteswap32_word (little : bool) (b0 b1 b2 b3 : ascii) :
  byteswap32 (word_of_bytes little b0 b1 b2 b3) =
  word_of_bytes (negb little) b0 b1 b2 b3.
Proof.
  pose proof (code_range b0). pose proof (code_range b1).
  pose proof (code_range b2). pose proof (code_range b3).
  unfold word_of_bytes. destruct little; cbn [negb];
    by rewrite byteswap32_bytes.
Qed.

Lemma byteswap_words (little : bool) (s : string) :
  byteswap (words_of_bytes little s) = words_of_bytes (negb little) s.
Proof.
  assert (H : forall n s, (String.length s <= n)%nat ->
            byteswap (words_of_bytes little s) =
            words_of_bytes (negb little) s).
  { clear s. induction n as [|n IH]; intros s Hn.
    - destruct s; [reflexivity|cbn in Hn; lia].
    - destruct s as [|b0 [|b1 [|b2 [|b3 rest]]]]; try reflexivity.
      cbn [words_of_bytes byteswap map]. fold (byteswap (words_of_bytes little rest)).
      rewrite byteswap32_word. f_equal. apply IH. cbn in Hn. lia. }
  by apply (H (String.length s)).
Qed.

Section ReaderInvariants.
Context `{P : Platform}.

Lemma corrected_order (le : pyval) (content : string) :
  corrected le content = words_of_bytes (decoding_order le) content.
Proof.
  unfold corrected, decoding_order.
  destruct (truthy le); [reflexivity|apply byteswap_words].
Qed.

(** X7: the reader decodes the four-byte groups of a file in the byte order
    of the machine when the descriptor says little-endian, and in the
    opposite order when it says big-endian; nothing else of the bytes is
    changed before the sentinel policy.  So the flag of the descriptor gives
    the byte order of the file exactly on little-endian machines. *)
Theorem reader_decoding_order (w : world) (dir file content : string)
  (desc : gmap string pyval) (le undef : pyval) (below_zero : bool) :
  files w !! sep_join dir file = Some content ->
  desc !! "little_endian" = Some le ->
  desc !! "undef" = Some undef ->
  lt_zero undef = Ok below_zero ->
  read_daily w dir desc file =
  Ok (if below_zero
      then zero_negative (words_of_bytes (decoding_order le) content)
      else words_of_bytes (decoding_order le) content).
Proof.
  intros Hf Hle Hu Hz.
  rewrite (read_daily_readable w dir file content desc le undef below_zero)
    by done.
  by rewrite corrected_order.
Qed.

(** What a returned array is made of. *)
Lemma read_daily_inversion (w : world) (dir file : string)
  (desc : gmap string pyval) (data : list Z) :
  read_daily w dir desc file = Ok data ->
  exists content le undef below_zero,
    files w !! sep_join dir file = Some content /\
    desc !! "little_endian" = Some le /\
    desc !! "undef" = Some undef /\
    lt_zero undef = Ok below_zero /\
    data = if below_zero then zero_negative (corrected le content)
           else corrected le content.
Proof.
  unfold read_daily, np_fromfile, read_file, getitem. intros H.
  destruct (files w !! sep_join dir file) as [content|]; [|discriminate].
  cbn in H.
  destruct (desc !! "little_endian") as [le|]; [|discriminate]. cbn in H.
  destruct (desc !! "undef") as [undef|]; [|discriminate]. cbn in H.
  destruct (lt_zero undef) as [bz|] eqn:Hz; [|discriminate]. cbn in H.
  injection H as <-.
  exists content, le, undef, bz. repeat split; try done.
  unfold corrected. by destruct (truthy le), bz.
Qed.

(** X8: with a negative sentinel, no element of the array the reader
    returns is below zero. *)
Theorem reader_returns_no_negative (w : world) (dir file : string)
  (desc : gmap string pyval) (undef : pyval) (data : list Z) :
  desc !! "undef" = Some undef ->
  lt_zero undef = Ok true ->
  read_daily w dir desc file = Ok data ->
  Forall (fun x => not_negative (binary32 x) = true) data.
Proof.
  intros Hu Hz H.
  apply read_daily_inversion in H
    as (content & le & undef' & bz & _ & _ & Hu' & Hz' & ->).
  rewrite Hu in Hu'. injection Hu' as <-. rewrite Hz in Hz'.
  injection Hz' as <-.
  unfold zero_negative. apply Forall_fmap, Forall_forall. intros x _. cbn.
  unfold not_negative.
  destruct (SFltb (binary32 x) float_zero) eqn:E; [reflexivity|by rewrite E].
Qed.

End ReaderInvariants.

Lemma reader_decoding_order_witness :
  read_daily
    (work_dir [day1] [(day1, le_file [f32_minus_five; f32_one])])
    "work" (<["little_endian" := PyBool false]> grid_2x2) day1 =
  Ok (if true
      then zero_negative
             (words_of_bytes (decoding_order (PyBool false))
                (le_file [f32_minus_five; f32_one]))
      else words_of_bytes (decoding_order (PyBool false))
             (le_file [f32_minus_five; f32_one])).
Proof.
  apply (reader_decoding_order
           (work_dir [day1] [(day1, le_file [f32_minus_five; f32_one])])
           "work" day1 (le_file [f32_minus_five; f32_one])
           (<["little_endian" := PyBool false]> grid_2x2)
           (PyBool false) (PyFloat (double (-999) 0)) true);
    reflexivity.
Defined.

Lemma reader_returns_no_negative_witness :
  Forall (fun x => not_negative (binary32 x) = true) [0; 0; f32_one].
Proof.
  apply (reader_returns_no_negative
           (work_dir [day1]
              [(day1, le_file [f32_minus_five; f32_undef; f32_one])])
           "work" day1 grid_2x2 (PyFloat (double (-999) 0))
           [0; 0; f32_one]);
    vm_compute; reflexivity.
Defined.

(** ** The monthly aggregator, further *)

Lemma binary_round_aux_not_negative (prec emax mx ex : Z) (lx : location) :
  not_negative (binary_round_aux prec emax false mx ex lx) = true.
Proof.
  unfold binary_round_aux.
  destruct (shr_fexp prec emax mx ex lx) as [mrs' e'].
  destruct (shr_fexp prec emax _ e' loc_Exact) as [mrs'' e''].
  destruct (shr_m mrs''); [reflexivity| |reflexivity].
  by destruct (e'' <=? emax - prec).
Qed.

Lemma binary_round_not_negative (prec emax : Z) (m : positive) (e : Z) :
  not_negative (binary_round prec emax false m e) = true.
Proof.
  unfold binary_round. destruct (shl_align m e _) as [mz ez].
  apply binary_round_aux_not_negative.
Qed.

Lemma to_double_not_negative (f : spec_float) :
  not_negative f = true -> not_negative (to_double f) = true.
Proof.
  destruct f as [s|s| |s m e]; try done.
  destruct s; [discriminate|]. intros _. apply binary_round_not_negative.
Qed.

Lemma double_add_not_negative (x y : spec_float) :
  not_negative x = true -> not_negative y = true ->
  not_negative (double_add x y) = true.
Proof.
  destruct x as [sx|sx| |sx mx ex], y as [sy|sy| |sy my ey];
    try destruct sx; try destruct sy; try done.
  intros _ _. unfold double_add, SFadd. cbn [cond_Zopp].
  unfold binary_normalize. cbn [Z.add]. apply binary_round_not_negative.
Qed.

Lemma iadd_not_negative (summed : list spec_float) (data : list Z)
  (summed' : list spec_float) :
  Forall (fun f => not_negative f = true) summed ->
  Forall (fun x => not_negative (binary32 x) = true) data ->
  iadd summed data = Ok summed' ->
  Forall (fun f => not_negative f = true) summed'.
Proof.
  intros Hs Hd. unfold iadd.
  assert (Hv : Forall (fun f => not_negative f = true)
                 (map (fun w => to_double (binary32 w)) data)).
  { apply Forall_fmap. eapply Forall_impl; [exact Hd|].
    intros x Hx. by apply to_double_not_negative. }
  destruct (_ =? _)%nat.
  - intros H%Ok_inj. subst summed'. apply Forall_lookup. intros i f Hf.
    apply lookup_zip_with_Some in Hf as (a & b & -> & Ha & Hb).
    apply double_add_not_negative.
    + by apply (Forall_lookup_1 _ _ _ _ Hs Ha).
    + by apply (Forall_lookup_1 _ _ _ _ Hv Hb).
  - destruct (map _ data) as [|v [|v' l]];
      try (intros H; discriminate H).
    intros H%Ok_inj. subst summed'. apply Forall_fmap.
    eapply Forall_impl; [exact Hs|].
    intros x Hx. cbn. apply double_add_not_negative; [done|].
    by apply Forall_inv in Hv.
Qed.

Section AggregatorInvariants.
Context `{P : Platform}.

(** One round of the loop either leaves the sum alone or adds a file the
    reader returned. *)

Lemma monthly_sum_inversion (w : world) (dir : string)
  (desc : gmap string pyval) (data_year data_month : Z)
  (data : list spec_float) :
  _read_daily_cmorph_to_monthly_sum w dir desc data_year data_month = Ok data ->
  exists xc yc n listing,
    desc !! "xdef_count" = Some xc /\ desc !! "ydef_count" = Some yc /\
    array_length xc yc = Ok n /\ 0 <= n /\
    dirs w !! dir = Some listing /\
    monthly_sum_loop w dir desc data_year data_month listing
      (replicate (Z.to_nat n) float_zero) = Ok data.
Proof.
  unfold _read_daily_cmorph_to_monthly_sum, getitem, os_listdir.
  intros H.
  destruct (desc !! "xdef_count") as [xc|]; [|discriminate].
  destruct (desc !! "ydef_count") as [yc|]; [|discriminate].
  cbn -[np_zeros monthly_sum_loop] in H.
  destruct (array_length xc yc) as [n|] eqn:En; [|discriminate].
  cbn -[np_zeros monthly_sum_loop] in H.
  destruct (np_zeros n) as [zeros|] eqn:Ez; [|discriminate].
  apply np_zeros_returns in Ez as (Hn & _ & ->).
  destruct (dirs w !! dir) as [listing|]; [|discriminate].
  cbn -[monthly_sum_loop] in H.
  by exists xc, yc, n, listing.
Qed.

(** X9: whatever the files hold, an aggregate that is returned has exactly
    [x_count * y_count] elements. *)
Theorem monthly_sum_has_grid_length (w : world) (dir : string)
  (desc : gmap string pyval) (data_year data_month x y : Z)
  (data : list spec_float) :
  desc !! "xdef_count" = Some (PyInt x) ->
  desc !! "ydef_count" = Some (PyInt y) ->
  _read_daily_cmorph_to_monthly_sum w dir desc data_year data_month = Ok data ->
  Z.of_nat (length data) = x * y.
Proof.
  intros Hx Hy H.
  apply monthly_sum_inversion in H
    as (xc & yc & n & listing & Hxc & Hyc & Hn & Hpos & _ & Hloop).
  rewrite Hx in Hxc. rewrite Hy in Hyc.
  injection Hxc as <-. injection Hyc as <-. cbn in Hn. injection Hn as <-.
  assert (Hl : length data = Z.to_nat (x * y)).
  { apply (monthly_sum_loop_invariant
             (fun s => length s = Z.to_nat (x * y)) w dir desc
             data_year data_month) with (2 := length_replicate _ _)
                                        (3 := Hloop).
    intros summed file summed' HQ Hstep.
    apply monthly_sum_step_inversion in Hstep as [->|(d & _ & Hi)]; [done|].
    by rewrite (iadd_length _ _ _ Hi). }
  lia.
Qed.

(** X10: with a negative sentinel, no element of a returned aggregate is
    below zero: negative readings never lower a monthly sum. *)
Theorem monthly_sum_is_not_negative (w : world) (dir : string)
  (desc : gmap string pyval) (data_year data_month : Z) (undef : pyval)
  (data : list spec_float) :
  desc !! "undef" = Some undef ->
  lt_zero undef = Ok true ->
  _read_daily_cmorph_to_monthly_sum w dir desc data_year data_month = Ok data ->
  Forall (fun f => not_negative f = true) data.
Proof.
  intros Hu Hz H.
  apply monthly_sum_inversion in H
    as (xc & yc & n & listing & _ & _ & _ & _ & _ & Hloop).
  apply (monthly_sum_loop_invariant
           (Forall (fun f => not_negative f = true)) w dir desc
           data_year data_month) with (3 := Hloop).
  - intros summed file summed' HQ Hstep.
    apply monthly_sum_step_inversion in Hstep as [->|(d & Hr & Hi)]; [done|].
    apply (iadd_not_negative summed d summed' HQ); [|done].
    apply read_daily_inversion in Hr
      as (content & le & undef' & bz & _ & _ & Hu' & Hz' & ->).
    rewrite Hu in Hu'. injection Hu' as <-. rewrite Hz in Hz'.
    injection Hz' as <-.
    unfold zero_negative. apply Forall_fmap, Forall_forall. intros v _. cbn.
    unfold not_negative.
    destruct (SFltb (binary32 v) float_zero) eqn:E; [reflexivity|by rewrite E].
  - by apply Forall_replicate.
Qed.

(** *** The parser and the aggregator together *)

Lemma typed_lookup (desc : gmap string pyval) (key : string) (v : pyval) :
  typed_descriptor desc -> desc !! key = Some v -> entry_typed key v = true.
Proof. intros Ht Hv. exact (Ht key v Hv). Qed.

Lemma read_daily_errors (w : world) (dir file : string)
  (desc : gmap string pyval) (e : exn) :
  typed_descriptor desc ->
  read_daily w dir desc file = Raise e -> aggregator_error e = true.
Proof.
  intros Ht. unfold read_daily, np_fromfile, read_file, getitem.
  destruct (files w !! sep_join dir file); cbn; [|by intros [= <-]].
  destruct (desc !! "little_endian"); cbn; [|by intros [= <-]].
  destruct (desc !! "undef") as [undef|] eqn:Hu; cbn; [|by intros [= <-]].
  pose proof (typed_lookup desc "undef" undef Ht Hu) as Hty.
  destruct undef; try discriminate Hty. cbn. discriminate.
Qed.

Lemma iadd_errors (summed : list spec_float) (data : list Z) (e : exn) :
  iadd summed data = Raise e -> e = ValueError.
Proof.
  unfold iadd. destruct (_ =? _)%nat; [discriminate|].
  destruct (map _ data) as [|v [|v' l]]; congruence.
Qed.

Lemma monthly_sum_step_errors (w : world) (dir : string)
  (desc : gmap string pyval) (data_year data_month : Z)
  (summed : list spec_float) (file : string) (e : exn) :
  typed_descriptor desc ->
  monthly_sum_step w dir desc data_year data_month summed file = Raise e ->
  aggregator_error e = true.
Proof.
  intros Ht. unfold monthly_sum_step, int.
  destruct (int_of_string (slice_from_end file 8 4)); cbn;
    [|by intros [= <-]].
  destruct (int_of_string (slice_from_end file 4 2)); cbn;
    [|by intros [= <-]].
  destruct (negb _); [discriminate|]. destruct (negb _); [discriminate|].
  destruct (read_daily w dir desc file) as [data|e'] eqn:Hr; cbn.
  - intros Hi. by rewrite (iadd_errors _ _ _ Hi).
  - intros [= <-]. by apply (read_daily_errors w dir file desc).
Qed.

Lemma monthly_sum_loop_errors (w : world) (dir : string)
  (desc : gmap string pyval) (data_year data_month : Z)
  (listing : list string) (summed : list spec_float) (e : exn) :
  typed_descriptor desc ->
  monthly_sum_loop w dir desc data_year data_month listing summed = Raise e ->
  aggregator_error e = true.
Proof.
  intros Ht. revert summed.
  induction listing as [|file listing IH]; intros summed; [discriminate|].
  cbn.
  destruct (monthly_sum_step w dir desc data_year data_month summed file)
    as [s1|e1] eqn:E; cbn; [apply IH|].
  intros [= <-]. by apply (monthly_sum_step_errors _ _ _ _ _ _ _ _ Ht E).
Qed.

(** X11: on a descriptor returned by the parser the aggregator cannot fail
    on the type of a value: when it raises, the exception is [KeyError] (a
    keyword was missing), [ValueError] (a file name without numbers, a
    negative size, arrays that do not fit) or [OSError] (the directory or a
    file cannot be read), never [TypeError]. *)
Theorem parsed_descriptor_aggregates_without_type_error
  (w0 : world) (path : string) (desc : gmap string pyval)
  (w : world) (dir : string) (data_year data_month : Z) (e : exn) :
  _read_description w0 path = Ok desc ->
  _read_daily_cmorph_to_monthly_sum w dir desc data_year data_month = Raise e ->
  aggregator_error e = true.
Proof.
  intros Hp. pose proof (parsed_descriptor_typing w0 path desc Hp) as Ht.
  unfold _read_daily_cmorph_to_monthly_sum, getitem, os_listdir.
  destruct (desc !! "xdef_count") as [xc|] eqn:Hx; cbn; [|by intros [= <-]].
  destruct (desc !! "ydef_count") as [yc|] eqn:Hy; cbn; [|by intros [= <-]].
  pose proof (typed_lookup desc _ xc Ht Hx) as Htx.
  pose proof (typed_lookup desc _ yc Ht Hy) as Hty.
  destruct xc; try discriminate Htx. destruct yc; try discriminate Hty.
  cbn -[np_zeros monthly_sum_loop].
  destruct (np_zeros _) as [zeros|e0] eqn:Ez; cbn -[monthly_sum_loop].
  - destruct (dirs w !! dir); cbn -[monthly_sum_loop]; [|by intros [= <-]].
    by apply monthly_sum_loop_errors.
  - apply np_zeros_refuses in Ez as ->. by intros [= <-].
Qed.

End AggregatorInvariants.

Lemma monthly_sum_has_grid_length_witness :
  Z.of_nat (length [double 1 0; double 2 0; double 2 0; double 2 0]) = 2 * 2.
Proof.
  apply (monthly_sum_has_grid_length
           (work_dir [day1; day2]
              [(day1, le_file [f32_one; f32_one; f32_one; f32_one]);
               (day2, le_file [f32_undef; f32_one; f32_one; f32_one])])
           "work" grid_2x2 1998 1 2 2);
    vm_compute; reflexivity.
Defined.

Lemma monthly_sum_is_not_negative_witness :
  Forall (fun f => not_negative f = true)
    [double 1 0; double 2 0; double 2 0; double 2 0].
Proof.
  apply (monthly_sum_is_not_negative
           (work_dir [day1; day2]
              [(day1, le_file [f32_one; f32_one; f32_one; f32_one]);
               (day2, le_file [f32_undef; f32_one; f32_one; f32_one])])
           "work" grid_2x2 1998 1 (PyFloat (double (-999) 0)));
    vm_compute; reflexivity.
Defined.

Lemma parsed_descriptor_aggregates_without_type_error_witness :
  aggregator_error KeyError = true.
Proof.
  apply (parsed_descriptor_aggregates_without_type_error
           (descriptor_only "d.ctl" ("TITLE CMORPH" ++ nl)) "d.ctl"
           (<["title" := PyStr "CMORPH"]> ∅)
           (work_dir [day1] []) "work" 1998 1 KeyError);
    vm_compute; reflexivity.
Defined.

(** X12: the aggregate depends on the order in which the directory lists
    the files.  Three files of January 1998 on a 1 x 1 grid, holding 2^53, 1
    and 1, add up to 2^53 when the large value comes first and to 2^53 + 2
    when it comes last: the sum is a float64 sum, which rounds at every
    step. *)
Theorem listing_order_changes_the_sum :
  _read_daily_cmorph_to_monthly_sum
    (work_dir [day1; day2; day3]
       [(day1, le_file [f32_two_53]); (day2, le_file [f32_one]);
        (day3, le_file [f32_one])])
    "work" grid_1x1 1998 1 = Ok [double 9007199254740992 0] /\
  _read_daily_cmorph_to_monthly_sum
    (work_dir [day2; day3; day1]
       [(day1, le_file [f32_two_53]); (day2, le_file [f32_one]);
        (day3, le_file [f32_one])])
    "work" grid_1x1 1998 1 = Ok [double 9007199254740994 0] /\
  double 9007199254740992 0 <> double 9007199254740994 0.
Proof.
  split; [vm_compute; reflexivity|].
  split; [vm_compute; reflexivity|].
  vm_compute. discriminate.
Qed.

(** ** The driver, further *)

Section DriverInvariants.
Context `{P : Platform}.

(** X13: no run of [ingest_cmorph_to_netcdf] reaches the end of the
    function: whatever the arguments and the world, it ends with an
    exception. *)
Theorem ingest_never_completes
  (cmorph_dir descriptor_file netcdf_file : string)
  (data_descriptor_file_name obs_type : string)
  (download_files remove_files : bool) (w : world) :
  exists w' e,
    ingest_cmorph_to_netcdf cmorph_dir descriptor_file netcdf_file
      data_descriptor_file_name obs_type download_files remove_files w
    = (w', Raise e).
Proof. apply ingest_always_raises. Qed.

(** X14: a run without retrieval on a descriptor that has the two counts,
    the title and the start date, with a netCDF4 library that accepts every
    call, creates the dataset, its three dimensions, the title, the three
    coordinate variables and their units, then closes the dataset and raises
    [TypeError]: no coordinate value and no precipitation value is ever
    written, and no file is touched. *)
Theorem ingest_leaves_a_skeleton
  (cmorph_dir descriptor_file netcdf_file : string)
  (data_descriptor_file_name obs_type : string) (remove_files : bool)
  (w : world) (xc yc title : pyval) (start : datetime) :
  descriptor_field w (sep_join cmorph_dir "data_descriptor.txt") "xdef_count"
    = Ok xc ->
  descriptor_field w (sep_join cmorph_dir "data_descriptor.txt") "ydef_count"
    = Ok yc ->
  descriptor_field w (sep_join cmorph_dir "data_descriptor.txt") "title"
    = Ok title ->
  descriptor_field w (sep_join cmorph_dir "data_descriptor.txt") "start_date"
    = Ok (PyDatetime start) ->
  (forall log c, netcdf_accepts log c = true) ->
  ingest_cmorph_to_netcdf cmorph_dir descriptor_file netcdf_file
    data_descriptor_file_name obs_type false remove_files w =
  (World (dirs w) (files w)
     (netcdf w ++
      [NcDataset netcdf_file;
       NcCreateDimension "time" None;
       NcCreateDimension "lon" (Some xc);
       NcCreateDimension "lat" (Some yc);
       NcSetAttr "" "title" title;
       NcCreateVariable "time" "i4" ["time"] None;
       NcCreateVariable "lon" "f4" ["lon"] None;
       NcCreateVariable "lat" "f4" ["lat"] None;
       NcSetAttr "time" "units" (PyStr "days since 1800-01-01 00:00:00");
       NcSetAttr "lon" "units" (PyStr "degrees east");
       NcSetAttr "lat" "units" (PyStr "degrees north");
       NcClose]),
   Raise TypeError).
Proof.
  unfold descriptor_field. intros Hx Hy Ht Hs Hacc.
  destruct (_read_description w (sep_join cmorph_dir "data_descriptor.txt"))
    as [desc|e] eqn:Hd; [|discriminate Hx].
  cbn in Hx, Hy, Ht, Hs.
  unfold ingest_cmorph_to_netcdf. cbn [andb when].
  erewrite io_bind_ok; [|reflexivity].
  erewrite io_bind_ok; [|unfold inspect; rewrite Hd; reflexivity].
  erewrite io_bind_ok; [|reflexivity].
  unfold with_dataset. rewrite nc_result, Hacc. cbn [netcdf dirs files].
  match goal with
  | |- (let '(w2, r) := ?body ?w1 in _) = _ =>
      eassert (Hb : body w1 = (_, Raise TypeError))
  end.
  { repeat (erewrite io_bind_ok;
            [|first [ rewrite nc_result, Hacc; cbn [netcdf dirs files];
                      reflexivity
                    | unfold lift; rewrite ?Hx, ?Hy, ?Ht, ?Hs; reflexivity ]]).
    erewrite io_bind_raise; [reflexivity|].
    unfold lift. by rewrite driver_call_raises. }
  rewrite Hb. rewrite nc_result, Hacc. cbn [netcdf dirs files].
  by rewrite <- !app_assoc.
Qed.

(** X15: processing a month without retrieval touches no file and no
    directory.  When it succeeds it has made exactly one netCDF4 call, the
    assignment of one slice of [prcp]; when it raises it has made none: a
    month is written whole or not at all. *)
Theorem month_without_retrieval_frame (cmorph_dir obs_type : string)
  (remove_files : bool) (data_desc : gmap string pyval)
  (data_year data_month : Z) (w : world) :
  exists calls,
    (ingest_month cmorph_dir obs_type false remove_files data_desc
       data_year data_month w).1 =
    World (dirs w) (files w) (netcdf w ++ calls) /\
    match (ingest_month cmorph_dir obs_type false remove_files data_desc
             data_year data_month w).2 with
    | Ok _ => exists index data, calls = [NcAssign "prcp" (Some index) data]
    | Raise _ => calls = []
    end.
Proof.
  assert (Hw : w = World (dirs w) (files w) (netcdf w ++ [])).
  { rewrite app_nil_r. by destruct w. }
  unfold ingest_month. cbn [andb when].
  cbv [mbind io_bind inspect lift nc].
  repeat match goal with
  | |- context [match ?r with Ok _ => _ | Raise _ => _ end] =>
      destruct r; [|by exists []]
  end.
  destruct (netcdf_accepts _ _); [|by exists []].
  eexists. split; [reflexivity|]. cbn. by eexists _, _.
Qed.

End DriverInvariants.

Lemma ingest_leaves_a_skeleton_witness :
  ingest_cmorph_to_netcdf "work" "elsewhere.ctl" "out.nc"
    "CMORPH_V1.0_RAW_0.25deg-DLY_00Z.ctl" "raw" false false
    (descriptor_only "work/data_descriptor.txt"
       ("TITLE CMORPH" ++ nl ++ "XDEF 2 LINEAR 0.125 0.25" ++ nl ++
        "YDEF 2 LINEAR -59.875 0.25" ++ nl ++
        "TDEF 99999 LINEAR 01jan1998 1dy" ++ nl)) =
  (World
     (dirs (descriptor_only "work/data_descriptor.txt"
       ("TITLE CMORPH" ++ nl ++ "XDEF 2 LINEAR 0.125 0.25" ++ nl ++
        "YDEF 2 LINEAR -59.875 0.25" ++ nl ++
        "TDEF 99999 LINEAR 01jan1998 1dy" ++ nl)))
     (files (descriptor_only "work/data_descriptor.txt"
       ("TITLE CMORPH" ++ nl ++ "XDEF 2 LINEAR 0.125 0.25" ++ nl ++
        "YDEF 2 LINEAR -59.875 0.25" ++ nl ++
        "TDEF 99999 LINEAR 01jan1998 1dy" ++ nl)))
     (netcdf (descriptor_only "work/data_descriptor.txt"
       ("TITLE CMORPH" ++ nl ++ "XDEF 2 LINEAR 0.125 0.25" ++ nl ++
        "YDEF 2 LINEAR -59.875 0.25" ++ nl ++
        "TDEF 99999 LINEAR 01jan1998 1dy" ++ nl)) ++
      [NcDataset "out.nc";
       NcCreateDimension "time" None;
       NcCreateDimension "lon" (Some (PyInt 2));
       NcCreateDimension "lat" (Some (PyInt 2));
       NcSetAttr "" "title" (PyStr "CMORPH");
       NcCreateVariable "time" "i4" ["time"] None;
       NcCreateVariable "lon" "f4" ["lon"] None;
       NcCreateVariable "lat" "f4" ["lat"] None;
       NcSetAttr "time" "units" (PyStr "days since 1800-01-01 00:00:00");
       NcSetAttr "lon" "units" (PyStr "degrees east");
       NcSetAttr "lat" "units" (PyStr "degrees north");
       NcClose]),
   Raise TypeError).
Proof.
  apply (ingest_leaves_a_skeleton "work" "elsewhere.ctl" "out.nc"
           "CMORPH_V1.0_RAW_0.25deg-DLY_00Z.ctl" "raw" false
           (descriptor_only "work/data_descriptor.txt"
              ("TITLE CMORPH" ++ nl ++ "XDEF 2 LINEAR 0.125 0.25" ++ nl ++
               "YDEF 2 LINEAR -59.875 0.25" ++ nl ++
               "TDEF 99999 LINEAR 01jan1998 1dy" ++ nl))
           (PyInt 2) (PyInt 2) (PyStr "CMORPH") (Datetime 1998 1 1));
    reflexivity.
Defined.

(** ** The retrieval of the daily files *)

Lemma string_app_cons (c : ascii) (s t : string) :
  String c s ++ t = String c (s ++ t).
Proof. reflexivity. Qed.

Lemma string_length_app (s t : string) :
  String.length (s ++ t) = (String.length s + String.length t)%nat.
Proof.
  induction s as [|c s IH]; [reflexivity|].
  rewrite string_app_cons. cbn [String.length]. by rewrite IH.
Qed.

Lemma string_app_assoc (s t u : string) : (s ++ t) ++ u = s ++ (t ++ u).
Proof.
  induction s as [|c s IH]; [reflexivity|].
  rewrite !string_app_cons. by rewrite IH.
Qed.

Lemma substring_skip (p t : string) (k m : nat) :
  substring (String.length p + k) m (p ++ t) = substring k m t.
Proof.
  induction p as [|c p IH]; [reflexivity|].
  rewrite string_app_cons. cbn [String.length Nat.add substring]. exact IH.
Qed.

Lemma substring_prefix (t r : string) :
  substring 0 (String.length t) (t ++ r) = t.
Proof.
  induction t as [|c t IH]; [by destruct r|].
  rewrite string_app_cons. cbn [String.length substring]. by rewrite IH.
Qed.

(** The two slices the aggregator takes, on a name that ends with a year of
    four characters, a month of two and a day of two. *)
Lemma slices_of_dated_name (p y m d : string) :
  String.length y = 4%nat -> String.length m = 2%nat ->
  String.length d = 2%nat ->
  slice_from_end (p ++ (y ++ m) ++ d) 8 4 = y /\
  slice_from_end (p ++ (y ++ m) ++ d) 4 2 = m.
Proof.
  intros Hy Hm Hd. unfold slice_from_end.
  rewrite !string_length_app, Hy, Hm, Hd. rewrite string_app_assoc.
  split.
  - replace (String.length p + (4 + 2 + 2) - 8)%nat
      with (String.length p + 0)%nat by lia.
    replace (String.length p + (4 + 2 + 2) - 4 - (String.length p + 0))%nat
      with (String.length y) by lia.
    rewrite substring_skip. apply substring_prefix.
  - replace (String.length p + (4 + 2 + 2) - 4)%nat
      with (String.length p + 4)%nat by lia.
    replace (String.length p + (4 + 2 + 2) - 2 - (String.length p + 4))%nat
      with (String.length m) by lia.
    rewrite substring_skip. rewrite <- Hy at 1.
    replace (String.length y) with (String.length y + 0)%nat by lia.
    rewrite substring_skip. apply substring_prefix.
Qed.

Lemma checked_on_range (f : Z -> bool) (first count : Z) :
  forallb f (seqZ first count) = true ->
  forall k, first <= k < first + count -> f k = true.
Proof.
  intros H k Hk. rewrite forallb_forall in H. apply H.
  apply list_elem_of_In, elem_of_seqZ. lia.
Qed.

Lemma str_of_year (y : Z) :
  1000 <= y <= 9999 ->
  digits 4 (Retrieval.str y) = true /\ decimal 0 (Retrieval.str y) = y.
Proof.
  intros Hy.
  assert (H : forallb (fun y => digits 4 (Retrieval.str y)
                        && (decimal 0 (Retrieval.str y) =? y))
                (seqZ 1000 9000) = true) by (vm_compute; reflexivity).
  pose proof (checked_on_range _ _ _ H y ltac:(lia)) as Hc. cbn beta in Hc.
  apply andb_prop in Hc as [H1 H2]. split; [done|lia].
Qed.

Lemma zfill_of_two_digits (k : Z) :
  1 <= k <= 31 ->
  digits 2 (Retrieval.zfill 2 (Retrieval.str k)) = true /\
  decimal 0 (Retrieval.zfill 2 (Retrieval.str k)) = k.
Proof.
  intros Hk.
  assert (H : forallb (fun k => digits 2 (Retrieval.zfill 2 (Retrieval.str k))
                        && (decimal 0 (Retrieval.zfill 2 (Retrieval.str k))
                            =? k))
                (seqZ 1 31) = true) by (vm_compute; reflexivity).
  pose proof (checked_on_range _ _ _ H k ltac:(lia)) as Hc. cbn beta in Hc.
  apply andb_prop in Hc as [H1 H2]. split; [done|lia].
Qed.

(** X16: the names the retrieval gives to the daily files are the names the
    aggregator selects.  For a year of four digits, a month 1..12 and a day
    of the month, the name follows the convention, and the aggregator reads
    the same year and month back from it. *)
Theorem downloaded_name_is_selected (year month : Z) (obs_type : string)
  (day : Z) :
  1000 <= year <= 9999 -> 1 <= month <= 12 -> 0 <= day < 31 ->
  conventional (Retrieval.filename_unzipped year month obs_type day) = true /\
  int (slice_from_end
         (Retrieval.filename_unzipped year month obs_type day) 8 4) = Ok year /\
  int (slice_from_end
         (Retrieval.filename_unzipped year month obs_type day) 4 2) = Ok month.
Proof.
  intros Hy Hm Hd.
  destruct (str_of_year year Hy) as [Hy1 Hy2].
  destruct (zfill_of_two_digits month ltac:(lia)) as [Hm1 Hm2].
  destruct (zfill_of_two_digits (day + 1) ltac:(lia)) as [Hd1 _].
  pose proof (digits_spec _ _ Hy1) as [Ly _].
  pose proof (digits_spec _ _ Hm1) as [Lm _].
  pose proof (digits_spec _ _ Hd1) as [Ld _].
  assert (Hs : forall p,
    slice_from_end
      (p ++ Retrieval.year_month year month ++
            Retrieval.zfill 2 (Retrieval.str (day + 1))) 8 4
      = Retrieval.str year /\
    slice_from_end
      (p ++ Retrieval.year_month year month ++
            Retrieval.zfill 2 (Retrieval.str (day + 1))) 4 2
      = Retrieval.zfill 2 (Retrieval.str month)).
  { intros p. unfold Retrieval.year_month.
    by apply slices_of_dated_name. }
  unfold conventional, Retrieval.filename_unzipped.
  destruct (String.eqb obs_type "raw");
    destruct (Hs "CMORPH_V1.0_RAW_0.25deg-DLY_00Z_") as [E1 E2];
    destruct (Hs "CMORPH_V1.0_ADJ_0.25deg-DLY_00Z_") as [E3 E4];
    rewrite ?E1, ?E2, ?E3, ?E4, Hy1, Hm1;
    rewrite (int_of_digits 3 _ Hy1), (int_of_digits 1 _ Hm1), Hy2, Hm2;
    done.
Qed.

Lemma downloaded_name_is_selected_witness :
  conventional (Retrieval.filename_unzipped 2004 2 "adjusted" 28) = true /\
  int (slice_from_end
         (Retrieval.filename_unzipped 2004 2 "adjusted" 28) 8 4) = Ok 2004 /\
  int (slice_from_end
         (Retrieval.filename_unzipped 2004 2 "adjusted" 28) 4 2) = Ok 2.
Proof.
  apply (downloaded_name_is_selected 2004 2 "adjusted" 28); lia.
Defined.

(** X17: for the two observation types of the command line, the extension
    of the file that is fetched and the decompression that is applied to it
    agree: gzip for [.gz], bz2 for [.bz2]. *)
Theorem extension_matches_decompression (year : Z) (obs_type : string) :
  obs_type = "raw" \/ obs_type = "adjusted" ->
  Retrieval.uses_bz2 year obs_type =
  negb (String.eqb (Retrieval.zip_extension year obs_type) ".gz").
Proof.
  unfold Retrieval.uses_bz2, Retrieval.zip_extension.
  intros [-> | ->]; cbn.
  - destruct (Z.ltb_spec year 2004), (Z.leb_spec 2004 year);
      try reflexivity; lia.
  - by rewrite orb_true_r.
Qed.

Lemma extension_matches_decompression_witness :
  Retrieval.uses_bz2 2003 "raw" =
  negb (String.eqb (Retrieval.zip_extension 2003 "raw") ".gz").
Proof.
  apply (extension_matches_decompression 2003 "raw"). by left.
Defined.

(** X18: with any other observation type, a year before 2004 is fetched
    with the extension [.bz2] and opened with gzip. *)
Theorem other_type_before_2004_mismatch (year : Z) (obs_type : string) :
  obs_type <> "raw" -> obs_type <> "adjusted" -> year < 2004 ->
  Retrieval.zip_extension year obs_type = ".bz2" /\
  Retrieval.uses_bz2 year obs_type = false.
Proof.
  intros Hr Ha Hy. unfold Retrieval.uses_bz2, Retrieval.zip_extension.
  apply String.eqb_neq in Hr, Ha. rewrite Hr, Ha. cbn.
  split; [reflexivity|]. rewrite orb_false_r. apply Z.leb_gt. lia.
Qed.

Lemma other_type_before_2004_mismatch_witness :
  Retrieval.zip_extension 1998 "gauge" = ".bz2" /\
  Retrieval.uses_bz2 1998 "gauge" = false.
Proof.
  apply (other_type_before_2004_mismatch 1998 "gauge");
    [discriminate|discriminate|lia].
Defined.

Section RetrievalProperties.
Context `{P : Platform} `{C : Retrieval.Codecs}.

Lemma download_day_returns (dir : string) (year month : Z) (obs_type : string)
  (files : list string) (day : Z) (w w' : world) (res : list string) :
  Retrieval.download_day dir year month obs_type files day w = (w', Ok res) ->
  res = (files ++
         [(dir ++ "/" ++
           Retrieval.filename_unzipped year month obs_type day)%string])%list.
Proof.
  unfold Retrieval.download_day, Retrieval.done_with.
  cbv [mbind io_bind]. intros H.
  destruct (urlretrieve _ _ w) as [w1 [[]|e]]; [|discriminate H].
  destruct (if Retrieval.uses_bz2 year obs_type then _ else _)
    as [w2 [[]|e]]; [|discriminate H].
  destruct (os_remove _ w2) as [w3 [[]|e]]; [|discriminate H].
  by apply pair_equal_spec in H as [_ H%Ok_inj].
Qed.

Lemma download_days_returns (dir : string) (year month : Z)
  (obs_type : string) (days : list Z) (files : list string) (w w' : world)
  (res : list string) :
  Retrieval.download_days dir year month obs_type days files w = (w', Ok res) ->
  res = (files ++
         map (fun day =>
                (dir ++ "/" ++
                 Retrieval.filename_unzipped year month obs_type day)%string)
             days)%list.
Proof.
  revert files w. induction days as [|day days IH]; intros files w H.
  - cbn in H. unfold Retrieval.done_with in H.
    apply pair_equal_spec in H as [_ H%Ok_inj]. by rewrite app_nil_r.
  - cbn [Retrieval.download_days] in H. cbv [mbind io_bind] in H.
    destruct (Retrieval.download_day dir year month obs_type files day w)
      as [w1 [files1|e]] eqn:E; [|discriminate H].
    apply download_day_returns in E as ->.
    apply IH in H as ->. cbn. by rewrite <- app_assoc.
Qed.

Lemma days_of_month_item (year month : Z) :
  1 <= month <= 12 ->
  Retrieval.list_item (month_days year) (month - 1) =
  Ok (days_in_month year month).
Proof.
  intros Hm. unfold days_in_month, month_days.
  assert (Hc : month = 1 \/ month = 2 \/ month = 3 \/ month = 4 \/
               month = 5 \/ month = 6 \/ month = 7 \/ month = 8 \/
               month = 9 \/ month = 10 \/ month = 11 \/ month = 12) by lia.
  destruct (isleap year);
    repeat (destruct Hc as [->|Hc]; [reflexivity|]); subst; reflexivity.
Qed.

(** X19: when the retrieval of a month 1..12 returns, it returns one local
    name per day of that month (29 for the February of a leap year), in the
    order of the days, each in the destination directory. *)
Theorem retrieval_returns_the_days (dir : string) (year month : Z)
  (obs_type : string) (w w' : world) (files : list string) :
  1 <= month <= 12 ->
  Retrieval._download_daily_files dir year month obs_type w = (w', Ok files) ->
  files =
  map (fun day =>
         dir ++ "/" ++ Retrieval.filename_unzipped year month obs_type day)
      (seqZ 0 (days_in_month year month)).
Proof.
  intros Hm. unfold Retrieval._download_daily_files.
  fold (month_days year). cbv [mbind io_bind lift].
  rewrite (days_of_month_item year month Hm). intros H.
  by apply download_days_returns in H.
Qed.

(** X20: a month above 12 or below -11 raises [IndexError] before anything
    is fetched: the world is left as it was. *)
Theorem retrieval_rejects_month (dir : string) (year month : Z)
  (obs_type : string) (w : world) :
  month < -11 \/ 12 < month ->
  Retrieval._download_daily_files dir year month obs_type w =
  (w, Raise IndexError).
Proof.
  intros Hm. unfold Retrieval._download_daily_files.
  cbv [mbind io_bind lift]. unfold Retrieval.list_item.
  assert (Hl : length (if isleap year then _MONTH_DAYS_LEAP
                       else _MONTH_DAYS_NONLEAP) = 12%nat)
    by (by destruct (isleap year)).
  rewrite Hl.
  destruct ((0 <=? month - 1) && (month - 1 <? Z.of_nat 12)) eqn:E1.
  { apply andb_prop in E1 as [?%Z.leb_le ?%Z.ltb_lt]. lia. }
  destruct ((- Z.of_nat 12 <=? month - 1) && (month - 1 <? 0)) eqn:E2.
  { apply andb_prop in E2 as [?%Z.leb_le ?%Z.ltb_lt]. lia. }
  reflexivity.
Qed.

End RetrievalProperties.

Lemma retrieval_returns_the_days_witness :
  map (fun day => "work" ++ "/" ++ Retrieval.filename_unzipped 2000 2 "raw" day)
      (seqZ 0 29) =
  map (fun day => "work" ++ "/" ++ Retrieval.filename_unzipped 2000 2 "raw" day)
      (seqZ 0 (days_in_month 2000 2)).
Proof.
  apply (@retrieval_returns_the_days posix_dry_run no_codecs "work" 2000 2
           "raw" (work_dir [] []) (work_dir [] [])).
  - lia.
  - vm_compute. reflexivity.
Defined.

Lemma retrieval_rejects_month_witness :
  @Retrieval._download_daily_files posix_dry_run no_codecs "work" 1998 13 "raw"
    (work_dir [] []) = (work_dir [] [], Raise IndexError).
Proof.
  apply (@retrieval_rejects_month posix_dry_run no_codecs "work" 1998 13 "raw"
           (work_dir [] [])).
  lia.
Defined.

(** ** The coordinate values *)

Section FrangeProperties.
Context {A : Type} (lt : A -> A -> bool) (add : A -> A -> A).

(** X21: what [list(_frange(start, stop, step))] holds when it returns.  The
    element of index [k] is [start] after [k] additions of [step], every
    element is below [stop], and the value that follows the last one is not:
    the list is the longest run of [start, start + step, ...] below [stop]. *)
Theorem frange_yields_values_below_stop (fuel : nat) (start stop step : A)
  (l : list A) :
  _frange lt add fuel start stop step = Some l ->
  (forall k, (k < length l)%nat ->
     l !! k = Some (frange_value add start step k) /\
     lt (frange_value add start step k) stop = true) /\
  lt (frange_value add start step (length l)) stop = false.
Proof.
  revert start l. induction fuel as [|fuel IH]; intros start l H; [done|].
  cbn [_frange] in H. destruct (lt start stop) eqn:E.
  - destruct (_frange lt add fuel (add start step) stop step) as [l'|] eqn:E';
      [|done].
    cbn in H. injection H as <-. destruct (IH _ _ E') as [Hk Hend].
    split; [|exact Hend].
    intros [|k] Hlt; [by split|]. cbn in Hlt. apply Hk. lia.
  - injection H as <-. split; [cbn; lia|exact E].
Qed.

(** X22: the generator ends as soon as one of the values [start],
    [start + step], ... is not below [stop]: if the value after [n] additions
    is not, the list is returned and has at most [n] elements. *)
Theorem frange_returns_when_stop_is_reached (fuel n : nat)
  (start stop step : A) :
  lt (frange_value add start step n) stop = false -> (n < fuel)%nat ->
  exists l, _frange lt add fuel start stop step = Some l /\
            (length l <= n)%nat.
Proof.
  revert start n. induction fuel as [|fuel IH]; intros start n H Hn; [lia|].
  cbn [_frange]. destruct (lt start stop) eqn:E.
  - destruct n as [|n]; [cbn in H; congruence|].
    destruct (IH (add start step) n H ltac:(lia)) as (l & -> & Hl).
    exists (start :: l). split; [done|cbn; lia].
  - exists []. split; [done|cbn; lia].
Qed.

(** X23: a step that does not change [start] when it is added (zero, or a
    float too small beside [start]) makes the generator endless when
    [start < stop]: no number of rounds gives the list. *)
Theorem frange_absorbed_step_never_ends (fuel : nat) (start stop step : A) :
  lt start stop = true -> add start step = start ->
  _frange lt add fuel start stop step = None.
Proof.
  intros Hlt Hadd. induction fuel as [|fuel IH]; [done|].
  cbn [_frange]. by rewrite Hlt, Hadd, IH.
Qed.

End FrangeProperties.

Lemma frange_yields_values_below_stop_witness :
  (forall k, (k < length [double 1 (-3); double 3 (-3)])%nat ->
     [double 1 (-3); double 3 (-3)] !! k =
     Some (frange_value double_add (double 1 (-3)) (double 1 (-2)) k) /\
     SFltb (frange_value double_add (double 1 (-3)) (double 1 (-2)) k)
       (double 5 (-3)) = true) /\
  SFltb (frange_value double_add (double 1 (-3)) (double 1 (-2))
           (length [double 1 (-3); double 3 (-3)]))
    (double 5 (-3)) = false.
Proof.
  apply (frange_yields_values_below_stop SFltb double_add 3
           (double 1 (-3)) (double 5 (-3)) (double 1 (-2))).
  vm_compute. reflexivity.
Defined.

Lemma frange_returns_when_stop_is_reached_witness :
  exists l,
    _frange SFltb double_add 3 (double 1 (-3)) (double 5 (-3)) (double 1 (-2))
    = Some l /\ (length l <= 2)%nat.
Proof.
  apply (frange_returns_when_stop_is_reached SFltb double_add 3 2
           (double 1 (-3)) (double 5 (-3)) (double 1 (-2)));
    [vm_compute; reflexivity|lia].
Defined.

Lemma frange_absorbed_step_never_ends_witness :
  _frange SFltb double_add 1000 (double 9007199254740992 0)
    (double 9007199254740992 1) (double 1 0) = None.
Proof.
  apply (frange_absorbed_step_never_ends SFltb double_add 1000
           (double 9007199254740992 0) (double 9007199254740992 1)
           (double 1 0));
    vm_compute; reflexivity.
Defined.

(** X24: the number of coordinate values is not always the count of the
    descriptor.  The driver builds them with
    [_frange(start, start + count * increment, increment)].  For the
    longitudes of the CMORPH descriptor (1440 values from 0.125 by 0.25),
    which are exact in binary, this gives 1440 values; for 10 values from
    0.0 by 0.1 it gives 11, the last one 0.9999999999999999, because ten
    additions of 0.1 stay below [10 * 0.1 = 1.0]. *)
Theorem coordinate_count_depends_on_rounding :
  length <$> _frange SFltb double_add 1441 (double 1 (-3))
               (double_add (double 1 (-3))
                  (double_mul (double 1440 0) (double 1 (-2))))
               (double 1 (-2)) = Some 1440%nat /\
  double_add (double 0 0) (double_mul (double 10 0) tenth) = double 1 0 /\
  length <$> _frange SFltb double_add 12 (double 0 0)
               (double_add (double 0 0) (double_mul (double 10 0) tenth))
               tenth = Some 11%nat /\
  frange_value double_add (double 0 0) tenth 10 =
  double 9007199254740991 (-53).
Proof. repeat split; vm_compute; reflexivity. Qed.
